(** * Rainfall PDF ingestion service: the two process-pdf handlers

    A shallow embedding of [src/main.py]: the handlers [process_pdf]
    (multipart upload) and [process_pdf_base64] (JSON body), written in a
    small state-and-exception monad that also records the calls made to the
    outside world (temporary files, the parser, the document store).

    Everything the handlers call but do not define -- the table parser,
    the store driver, the temporary-file layer, the clock, the base64
    decoder, the string rendering of the framework's HTTP error -- is taken
    from a [World] record, so that every theorem holds for every behaviour
    of those collaborators.

    Left out: the [logger] calls, which return nothing, raise nothing and
    change none of the state below; the [_id] field that the store driver
    adds to each inserted document; faults of [pdf_file.read()] and of the
    [import] statements.  Times are rational numbers of seconds, strings are
    byte strings. *)

From Stdlib Require Import ZArith QArith List String Ascii Bool Lia DecimalString.
From stdpp Require Import gmap strings.
Import ListNotations.

Local Open Scope string_scope.
Local Open Scope list_scope.
Local Open Scope nat_scope.

(** ** Strings: [str.lower], [str.endswith], decimal rendering *)

(** [str.lower] on the ASCII range: 'A'..'Z' are mapped to 'a'..'z', every
    other byte is kept. *)
Definition ascii_lower (c : ascii) : ascii :=
  let n := nat_of_ascii c in
  if (65 <=? n) && (n <=? 90) then ascii_of_nat (n + 32) else c.

Fixpoint lower (s : string) : string :=
  match s with
  | EmptyString => EmptyString
  | String c s' => String (ascii_lower c) (lower s')
  end.

(** [s.endswith(suffix)] *)
Definition endswith (s suffix : string) : bool :=
  let n := String.length s in
  let m := String.length suffix in
  (m <=? n) && String.eqb (substring (n - m) m s) suffix.

(** [str(n)] / the rendering of an int inside an f-string. *)
Definition str_of_nat (n : nat) : string :=
  NilZero.string_of_uint (Nat.to_uint n).

(** [sub in s] *)
Definition contains (sub s : string) : Prop :=
  exists pre post : string, s = pre +:+ sub +:+ post.

(** ** Records and data frames *)

(** Cell values are owned by the parser; the pipeline only ever creates
    string cells (the date). *)
Inductive value : Type :=
| VStr (s : string)
| VInt (z : Z)
| VNone.

(** A Python dict with string keys: insertion ordered, keys unique. *)
Definition record : Type := list (string * value).

(** [d[k] = v]: replaces the value in place when the key is present,
    appends the key otherwise. *)
Fixpoint dict_set (k : string) (v : value) (d : record) : record :=
  match d with
  | [] => [(k, v)]
  | (k', v') :: d' =>
      if String.eqb k' k then (k', v) :: d' else (k', v') :: dict_set k v d'
  end.

(** [d.get(k)] *)
Fixpoint dict_get (k : string) (d : record) : option value :=
  match d with
  | [] => None
  | (k', v') :: d' => if String.eqb k' k then Some v' else dict_get k d'
  end.

Definition set_pair (d : record) (kv : string * value) : record :=
  dict_set (fst kv) (snd kv) d.

(** [dict(pairs)]: later pairs win, a key keeps its first position. *)
Definition dict_of_pairs (l : list (string * value)) : record :=
  fold_left set_pair l [].

(** A data frame: an index of [index_len] rows and a list of named columns,
    each column giving the cell of every row.  Rectangular by
    construction. *)
Record DataFrame : Type := {
  index_len : nat;
  columns : list (string * (nat -> value))
}.

(** [df.empty]: true when any axis has length 0. *)
Definition df_empty (df : DataFrame) : bool :=
  (index_len df =? 0) ||
  match columns df with [] => true | _ :: _ => false end.

(** [df[name] = v] with a scalar [v]: every column called [name] is
    overwritten with the scalar; when there is none, a new column is
    appended. *)
Definition df_setitem (name : string) (v : value) (df : DataFrame) : DataFrame :=
  {| index_len := index_len df;
     columns :=
       if existsb (fun c => String.eqb (fst c) name) (columns df)
       then map (fun c => if String.eqb (fst c) name
                          then (fst c, fun _ : nat => v) else c)
                (columns df)
       else columns df ++ [(name, fun _ : nat => v)] |}.

(** The cells of row [i], paired with their column names. *)
Definition df_row (df : DataFrame) (i : nat) : list (string * value) :=
  map (fun c => (fst c, snd c i)) (columns df).

(** The pairs of a row in which every cell of a column [name] is replaced
    by [v]. *)
Definition overwrite (name : string) (v : value) (l : list (string * value))
  : list (string * value) :=
  map (fun kv => if String.eqb (fst kv) name then (fst kv, v) else kv) l.

(** [df.to_dict('records')]: one dict per row, in index order. *)
Definition to_dict_records (df : DataFrame) : list record :=
  map (fun i => dict_of_pairs (df_row df i)) (seq 0 (index_len df)).

(** The record-stamping transform as the specification words it: each
    parsed record with its [date] field set to the supplied string. *)
Definition stamp (date : string) (parsed : list record) : list record :=
  map (dict_set "date" (VStr date)) parsed.

(** The transform as the handlers perform it (main.py 114-118):
    [df['date'] = date; records = df.to_dict('records')]. *)
Definition assemble (date : string) (df : DataFrame) : list record :=
  to_dict_records (df_setitem "date" (VStr date) df).

(** ** Requests, responses, exceptions *)

(** The framework's upload object, as far as the handler reads it:
    [filename], the reported [size] (which may be missing) and the bytes
    that [read()] returns. *)
Record UploadFile : Type := {
  filename : string;
  size : option Z;
  content : list Byte.byte
}.

Record PDFProcessRequest : Type := {
  pdf_data : string;
  date : string
}.

Record PDFProcessResponse : Type := {
  success : bool;
  records_count : nat;
  message : string;
  processing_time_ms : Z
}.

(** The exceptions that travel through the handlers: the framework's
    [HTTPException], raised by the handlers themselves, and any other
    exception, of which only [str(e)] is ever used. *)
Inductive exn : Type :=
| HTTPException (status_code : nat) (detail : string)
| Exception (text : string).

(** What [collection.insert_many] did: all documents written, or a failure
    raised after the first [persisted] documents of the batch were written
    (the driver inserts in order and stops at the first error). *)
Inductive insert_outcome : Type :=
| InsertOk
| InsertFail (persisted : nat) (text : string).

(** The calls to the outside world that a request makes, in order. *)
Inductive event : Type :=
| EvTempCreate (path : string)
| EvTempWrite (path : string) (ok : bool)
| EvParse (path : string) (r : string + DataFrame)
| EvConnect (uri : string)
| EvPing (ok : bool)
| EvInsertMany (docs : list record) (r : insert_outcome)
| EvClose
| EvUnlink (path : string) (ok : bool).

(** ** The world outside the handlers *)

Record World : Type := {
  (** [os.environ.get('MONGODB_URI')] *)
  environ_MONGODB_URI : option string;
  (** [time.time()] at request entry and just before the response is built,
      in seconds *)
  time_start : Q;
  time_end : Q;
  (** [base64.b64decode]: the text of the error, or the decoded bytes *)
  b64decode : string -> string + list Byte.byte;
  (** [str(e)] for the framework's [HTTPException] *)
  http_exception_str : nat -> string -> string;
  (** [tempfile.NamedTemporaryFile]: a fault on creation, the candidate
      names it tries in turn, a fault on [write] -- how many bytes had
      reached the file, and the text of the error *)
  tmp_create_fault : option string;
  tmp_names : list string;
  tmp_write_fault : option (nat * string);
  (** [os.unlink] raising although the file is there *)
  unlink_fault : option string;
  (** [FixedRainfallParser(debug=False)] raising, and
      [process_pdf_to_dataframe] on the bytes of the staged file *)
  parser_init_fault : option string;
  process_pdf_to_dataframe : list Byte.byte -> string + DataFrame;
  (** [MongoClient(uri, ...)] raising, [admin.command('ping')] raising,
      and what [insert_many] does with a batch *)
  mongo_client_fault : string -> option string;
  ping_fault : option string;
  insert_many_outcome : list record -> insert_outcome
}.

(** ** State, and the monad of the handlers *)

(** What a request can change: the temporary storage, the documents of the
    [rainfalldatas] collection, and the number of store clients that are
    open. *)
Record State : Type := {
  fs : gmap string (list Byte.byte);
  store : list record;
  open_clients : nat
}.

Record Outcome (A : Type) : Type := mkOutcome {
  result : exn + A;
  final : State;
  events : list event
}.
Arguments mkOutcome {A} _ _ _.
Arguments result {A} _.
Arguments final {A} _.
Arguments events {A} _.

Definition M (A : Type) : Type := State -> Outcome A.

#[global] Instance M_ret : MRet M :=
  fun A a st => mkOutcome (inr a) st [].

#[global] Instance M_bind : MBind M :=
  fun A B f m st =>
    match m st with
    | mkOutcome (inl e) st1 evs => mkOutcome (inl e) st1 evs
    | mkOutcome (inr a) st1 evs =>
        match f a st1 with
        | mkOutcome r st2 evs' => mkOutcome r st2 (evs ++ evs')
        end
    end.

Definition raise {A : Type} (e : exn) : M A :=
  fun st => mkOutcome (inl e) st [].

Definition get : M State :=
  fun st => mkOutcome (inr st) st [].

Definition put (st' : State) : M unit :=
  fun _ => mkOutcome (inr tt) st' [].

Definition emit (ev : event) : M unit :=
  fun st => mkOutcome (inr tt) st [ev].

(** [try: m except Exception as e: h e] *)
Definition try_except {A : Type} (m : M A) (h : exn -> M A) : M A :=
  fun st =>
    match m st with
    | mkOutcome (inl e) st1 evs =>
        match h e st1 with
        | mkOutcome r st2 evs' => mkOutcome r st2 (evs ++ evs')
        end
    | mkOutcome (inr a) st1 evs => mkOutcome (inr a) st1 evs
    end.

(** [try: m finally: fin]: [fin] runs on every exit of [m]; an exception of
    [fin] replaces the result of [m]. *)
Definition try_finally {A : Type} (m : M A) (fin : M unit) : M A :=
  fun st =>
    match m st with
    | mkOutcome r st1 evs =>
        match fin st1 with
        | mkOutcome (inl e) st2 evs' => mkOutcome (inl e) st2 (evs ++ evs')
        | mkOutcome (inr _) st2 evs' => mkOutcome r st2 (evs ++ evs')
        end
    end.

(** ** The locals of a handler

    [import os] at main.py 124 and 220 stands inside the handler.  That makes
    [os] a local name of the handler for the whole of its body: the
    module-level [os] of line 6 is hidden, and the name is unbound until
    line 124 (220) has run.  The part of a handler that reads or binds [os]
    is therefore written in a monad that also threads the locals. *)
Record Locals : Type := { os : bool }.

Record FOutcome (A : Type) : Type := mkFOutcome {
  f_result : exn + A;
  f_locals : Locals;
  f_final : State;
  f_events : list event
}.
Arguments mkFOutcome {A} _ _ _ _.
Arguments f_result {A} _.
Arguments f_locals {A} _.
Arguments f_final {A} _.
Arguments f_events {A} _.

Definition F (A : Type) : Type := Locals -> State -> FOutcome A.

#[global] Instance F_ret : MRet F :=
  fun A a l st => mkFOutcome (inr a) l st [].

#[global] Instance F_bind : MBind F :=
  fun A B f m l st =>
    match m l st with
    | mkFOutcome (inl e) l1 st1 evs => mkFOutcome (inl e) l1 st1 evs
    | mkFOutcome (inr a) l1 st1 evs =>
        match f a l1 st1 with
        | mkFOutcome r l2 st2 evs' => mkFOutcome r l2 st2 (evs ++ evs')
        end
    end.

(** A computation that touches no local. *)
Definition lift {A : Type} (m : M A) : F A :=
  fun l st =>
    match m st with
    | mkOutcome r st1 evs => mkFOutcome r l st1 evs
    end.

(** [import os] *)
Definition import_os : F unit :=
  fun _ st => mkFOutcome (inr tt) {| os := true |} st [].

(** An expression that starts with the name [os]: looking up the unbound
    local raises [UnboundLocalError]. *)
Definition use_os {A : Type} (m : M A) : F A :=
  fun l st =>
    if os l then lift m l st
    else mkFOutcome
           (inl (Exception
                   "cannot access local variable 'os' where it is not associated with a value"))
           l st [].

(** [try: m except ...: h e], the locals kept as [m] left them. *)
Definition f_try_except {A : Type} (m : F A) (h : exn -> F A) : F A :=
  fun l st =>
    match m l st with
    | mkFOutcome (inl e) l1 st1 evs =>
        match h e l1 st1 with
        | mkFOutcome r l2 st2 evs' => mkFOutcome r l2 st2 (evs ++ evs')
        end
    | mkFOutcome (inr a) l1 st1 evs => mkFOutcome (inr a) l1 st1 evs
    end.

(** [try: m finally: fin]: [fin] sees the locals as [m] left them. *)
Definition f_try_finally {A : Type} (m : F A) (fin : F unit) : F A :=
  fun l st =>
    match m l st with
    | mkFOutcome r l1 st1 evs =>
        match fin l1 st1 with
        | mkFOutcome (inl e) l2 st2 evs' =>
            mkFOutcome (inl e) l2 st2 (evs ++ evs')
        | mkFOutcome (inr _) l2 st2 evs' => mkFOutcome r l2 st2 (evs ++ evs')
        end
    end.

(** A handler body run in a fresh frame: [os] starts unbound, and the
    locals are gone when the body is left. *)
Definition run_frame {A : Type} (m : F A) : M A :=
  fun st =>
    match m {| os := false |} st with
    | mkFOutcome r _ st1 evs => mkOutcome r st1 evs
    end.

(** An outcome without its locals. *)
Definition forget {A : Type} (o : FOutcome A) : Outcome A :=
  mkOutcome (f_result o) (f_final o) (f_events o).

(** [int(x)] on a number of seconds: truncation towards zero. *)
Definition int_of_Q (q : Q) : Z := Z.quot (Qnum q) (Zpos (Qden q)).

(** [if not s] for an optional string: [None] and [''] are falsy. *)
Definition falsy (o : option string) : bool :=
  match o with
  | None => true
  | Some EmptyString => true
  | Some (String _ _) => false
  end.

(** [tempfile] picks the first candidate name that is not taken. *)
Fixpoint first_fresh (files : gmap string (list Byte.byte)) (names : list string)
  : option string :=
  match names with
  | [] => None
  | p :: names' =>
      match files !! p with
      | None => Some p
      | Some _ => first_fresh files names'
      end
  end.

(** ** The handlers of main.py *)

Section Handlers.

Variable w : World.

(** [str(e)] *)
Definition str_exn (e : exn) : string :=
  match e with
  | HTTPException status_code detail => http_exception_str w status_code detail
  | Exception text => text
  end.

(** [pdf_file.size > max_size]: comparing [None] with an int raises
    [TypeError]. *)
Definition size_gt (sz : option Z) (max_size : Z) : M bool :=
  match sz with
  | Some n => mret (Z.ltb max_size n)
  | None =>
      raise (Exception
        "'>' not supported between instances of 'NoneType' and 'int'")
  end.

(** [tempfile.NamedTemporaryFile(suffix='.pdf', delete=False)]: creates an
    empty file under a name that is not taken. *)
Definition NamedTemporaryFile : M string :=
  match tmp_create_fault w with
  | Some text => raise (Exception text)
  | None =>
      st ← get;
      match first_fresh (fs st) (tmp_names w) with
      | None => raise (Exception "No usable temporary file name found")
      | Some p =>
          _ ← put {| fs := <[p := []]> (fs st); store := store st;
                     open_clients := open_clients st |};
          _ ← emit (EvTempCreate p);
          mret p
      end
  end.

(** [temp_file.write(data)]; a write that fails has left the first [k]
    bytes in the file. *)
Definition temp_file_write (p : string) (data : list Byte.byte) : M unit :=
  match tmp_write_fault w with
  | Some (k, text) =>
      st ← get;
      _ ← put {| fs := <[p := firstn k data]> (fs st); store := store st;
                 open_clients := open_clients st |};
      _ ← emit (EvTempWrite p false);
      raise (Exception text)
  | None =>
      st ← get;
      _ ← put {| fs := <[p := data]> (fs st); store := store st;
                 open_clients := open_clients st |};
      emit (EvTempWrite p true)
  end.

(** main.py 101-104 and 197-200: the [with] block that stages the bytes.
    The file is created with [delete=False], so leaving the block, normally
    or by an exception, only closes it. *)
Definition stage (data : list Byte.byte) : M string :=
  temp_path ← NamedTemporaryFile;
  _ ← temp_file_write temp_path data;
  mret temp_path.

(** [os.unlink(path)] *)
Definition unlink (p : string) : M unit :=
  st ← get;
  match fs st !! p with
  | None => _ ← emit (EvUnlink p false); raise (Exception "No such file or directory")
  | Some _ =>
      match unlink_fault w with
      | Some text => _ ← emit (EvUnlink p false); raise (Exception text)
      | None =>
          _ ← put {| fs := delete p (fs st); store := store st;
                     open_clients := open_clients st |};
          emit (EvUnlink p true)
      end
  end.

(** [FixedRainfallParser(debug=False)] *)
Definition FixedRainfallParser : M unit :=
  match parser_init_fault w with
  | Some text => raise (Exception text)
  | None => mret tt
  end.

(** [parser.process_pdf_to_dataframe(temp_path)]: the parser reads the
    staged file and changes nothing. *)
Definition parser_process_pdf_to_dataframe (p : string) : M DataFrame :=
  st ← get;
  match fs st !! p with
  | None => raise (Exception "No such file or directory")
  | Some data =>
      _ ← emit (EvParse p (process_pdf_to_dataframe w data));
      match process_pdf_to_dataframe w data with
      | inl text => raise (Exception text)
      | inr df => mret df
      end
  end.

(** [MongoClient(MONGO_URI, serverSelectionTimeoutMS=10000)] *)
Definition MongoClient (uri : string) : M unit :=
  match mongo_client_fault w uri with
  | Some text => raise (Exception text)
  | None =>
      st ← get;
      _ ← put {| fs := fs st; store := store st;
                 open_clients := S (open_clients st) |};
      emit (EvConnect uri)
  end.

(** [client.admin.command('ping')] *)
Definition ping : M unit :=
  match ping_fault w with
  | Some text => _ ← emit (EvPing false); raise (Exception text)
  | None => emit (EvPing true)
  end.

(** [collection.insert_many(records)] *)
Definition insert_many (docs : list record) : M unit :=
  st ← get;
  match insert_many_outcome w docs with
  | InsertOk =>
      _ ← put {| fs := fs st; store := store st ++ docs;
                 open_clients := open_clients st |};
      emit (EvInsertMany docs InsertOk)
  | InsertFail k text =>
      _ ← put {| fs := fs st; store := store st ++ firstn k docs;
                 open_clients := open_clients st |};
      _ ← emit (EvInsertMany docs (InsertFail k text));
      raise (Exception text)
  end.

(** [client.close()] *)
Definition close : M unit :=
  st ← get;
  _ ← put {| fs := fs st; store := store st;
             open_clients := pred (open_clients st) |};
  emit EvClose.

(** main.py 122-148 and 218-244: the upload block.  It starts with the
    imports, of which [import os] binds the local [os]; the [except
    Exception] clause also catches the [HTTPException] raised for the
    missing variable. *)
Definition upload (records : list record) : F unit :=
  f_try_except
    (_ ← import_os;
     MONGO_URI ← use_os (mret (environ_MONGODB_URI w));
     if falsy MONGO_URI
     then lift (raise (HTTPException 500
                         "MONGODB_URI environment variable not set"))
     else
       _ ← lift (MongoClient (default EmptyString MONGO_URI));
       _ ← lift ping;
       _ ← match records with
           | [] => mret tt
           | _ :: _ => lift (insert_many records)
           end;
       lift close)
    (fun e =>
       lift (raise (HTTPException 500
                      ("MongoDB upload failed: " +:+ str_exn e)))).

(** main.py 107-159 and 203-255: parse, stamp, upload, respond. *)
Definition body (temp_path d : string) : F PDFProcessResponse :=
  _ ← lift FixedRainfallParser;
  df ← lift (parser_process_pdf_to_dataframe temp_path);
  if df_empty df
  then lift (raise (HTTPException 400
                      "No data could be extracted from the PDF"))
  else
    let df := df_setitem "date" (VStr d) df in
    let records := to_dict_records df in
    let records_count := length records in
    _ ← upload records;
    let processing_time :=
      int_of_Q ((time_end w - time_start w) * 1000)%Q in
    mret {| success := true;
            records_count := records_count;
            message := "PDF processed successfully. "
                       +:+ str_of_nat records_count
                       +:+ " records extracted and uploaded to MongoDB.";
            processing_time_ms := processing_time |}.

(** main.py 161-166 and 257-262: [try: os.unlink(temp_path) except: pass].
    [os] is the local of the handler: when the body was left before
    line 124 (220), the lookup raises and the bare [except] swallows it. *)
Definition cleanup (temp_path : string) : F unit :=
  f_try_except (use_os (unlink temp_path)) (fun _ => mret tt).

(** main.py 106-166 and 202-262: the body inside the [try ... finally]
    that removes the staged file.  Nothing before line 106 (202) touches
    [os], so the frame is opened here. *)
Definition parse_and_upload (temp_path d : string) : M PDFProcessResponse :=
  run_frame (f_try_finally (body temp_path d) (cleanup temp_path)).

(** main.py 168-172 and 264-268: [except HTTPException: raise], and every
    other exception turned into a 500. *)
Definition boundary (e : exn) : M PDFProcessResponse :=
  match e with
  | HTTPException _ _ => raise e
  | Exception _ =>
      raise (HTTPException 500 ("Failed to process PDF: " +:+ str_exn e))
  end.

(** [POST /process-pdf] *)
Definition process_pdf (pdf_file : UploadFile) (d : string)
  : M PDFProcessResponse :=
  try_except
    (if negb (endswith (lower (filename pdf_file)) ".pdf")
     then raise (HTTPException 400 "File must be a PDF")
     else
       let max_size := (10 * 1024 * 1024)%Z in
       too_big ← size_gt (size pdf_file) max_size;
       if (too_big : bool)
       then raise (HTTPException 400 "File size must be less than 10MB")
       else
         let pdf_content := content pdf_file in
         temp_path ← stage pdf_content;
         parse_and_upload temp_path d)
    boundary.

(** [POST /process-pdf-base64] *)
Definition process_pdf_base64 (request : PDFProcessRequest)
  : M PDFProcessResponse :=
  try_except
    (pdf_data ←
       match b64decode w (pdf_data request) with
       | inl text =>
           raise (HTTPException 400 ("Invalid base64 data: " +:+ text))
       | inr bytes => mret bytes
       end;
     temp_path ← stage pdf_data;
     parse_and_upload temp_path (date request))
    boundary.

End Handlers.

(** A request to either endpoint. *)
Inductive request : Type :=
| Multipart (pdf_file : UploadFile) (d : string)
| Base64 (body : PDFProcessRequest).

Definition handle (w : World) (r : request) : M PDFProcessResponse :=
  match r with
  | Multipart pdf_file d => process_pdf w pdf_file d
  | Base64 body => process_pdf_base64 w body
  end.

(** The date string a request carries. *)
Definition request_date (r : request) : string :=
  match r with
  | Multipart _ d => d
  | Base64 body => date body
  end.

(** ** The phases of a request *)

(** What a handler has decided when it reaches staging: the error of its
    validation steps, or the bytes to stage. *)
Definition accept (w : World) (r : request) : exn + list Byte.byte :=
  match r with
  | Multipart pdf_file _ =>
      if negb (endswith (lower (filename pdf_file)) ".pdf")
      then inl (HTTPException 400 "File must be a PDF")
      else
        match size pdf_file with
        | None =>
            inl (HTTPException 500
                   ("Failed to process PDF: " +:+
                    "'>' not supported between instances of 'NoneType' and 'int'"))
        | Some n =>
            if Z.ltb (10 * 1024 * 1024) n
            then inl (HTTPException 400 "File size must be less than 10MB")
            else inr (content pdf_file)
        end
  | Base64 body =>
      match b64decode w (pdf_data body) with
      | inl text => inl (HTTPException 400 ("Invalid base64 data: " +:+ text))
      | inr bytes => inr bytes
      end
  end.

(** Both handlers from staging on. *)
Definition ingest (w : World) (data : list Byte.byte) (d : string)
  : M PDFProcessResponse :=
  try_except
    (temp_path ← stage w data; parse_and_upload w temp_path d)
    (boundary w).

(** The result of the outer [except] clauses on a result. *)
Definition through_boundary {A : Type} (r : exn + A) : exn + A :=
  match r with
  | inl (Exception text) =>
      inl (HTTPException 500 ("Failed to process PDF: " +:+ text))
  | _ => r
  end.

(** The state after the [finally] clause ran on [st] with [os] bound. *)
Definition after_cleanup (w : World) (p : string) (st : State) : State :=
  match unlink_fault w with
  | Some _ => st
  | None => {| fs := delete p (fs st); store := store st;
               open_clients := open_clients st |}
  end.

Definition unlink_ok (w : World) : bool :=
  match unlink_fault w with Some _ => false | None => true end.

(** The outcomes of the staging block. *)
Inductive stage_spec (w : World) (data : list Byte.byte) (st : State)
  : Outcome string -> Prop :=
| StageCreateFault text :
    tmp_create_fault w = Some text ->
    stage_spec w data st (mkOutcome (inl (Exception text)) st [])
| StageNoName :
    tmp_create_fault w = None ->
    first_fresh (fs st) (tmp_names w) = None ->
    stage_spec w data st
      (mkOutcome (inl (Exception "No usable temporary file name found")) st [])
| StageWriteFault p k text :
    tmp_create_fault w = None ->
    first_fresh (fs st) (tmp_names w) = Some p ->
    tmp_write_fault w = Some (k, text) ->
    stage_spec w data st
      (mkOutcome (inl (Exception text))
         {| fs := <[p := firstn k data]> (fs st); store := store st;
            open_clients := open_clients st |}
         [EvTempCreate p; EvTempWrite p false])
| StageOk p :
    tmp_create_fault w = None ->
    first_fresh (fs st) (tmp_names w) = Some p ->
    tmp_write_fault w = None ->
    stage_spec w data st
      (mkOutcome (inr p)
         {| fs := <[p := data]> (fs st); store := store st;
            open_clients := open_clients st |}
         [EvTempCreate p; EvTempWrite p true]).

(** The outcomes of the upload block. *)
Inductive upload_spec (w : World) (records : list record) (st : State)
  : Outcome unit -> Prop :=
| UploadNoUri :
    falsy (environ_MONGODB_URI w) = true ->
    upload_spec w records st
      (mkOutcome
         (inl (HTTPException 500
                 ("MongoDB upload failed: " +:+
                  http_exception_str w 500
                    "MONGODB_URI environment variable not set")))
         st [])
| UploadClientFault uri text :
    environ_MONGODB_URI w = Some uri ->
    falsy (Some uri) = false ->
    mongo_client_fault w uri = Some text ->
    upload_spec w records st
      (mkOutcome
         (inl (HTTPException 500 ("MongoDB upload failed: " +:+ text))) st [])
| UploadPingFault uri text :
    environ_MONGODB_URI w = Some uri ->
    falsy (Some uri) = false ->
    mongo_client_fault w uri = None ->
    ping_fault w = Some text ->
    upload_spec w records st
      (mkOutcome
         (inl (HTTPException 500 ("MongoDB upload failed: " +:+ text)))
         {| fs := fs st; store := store st;
            open_clients := S (open_clients st) |}
         [EvConnect uri; EvPing false])
| UploadInsertFault uri k text :
    environ_MONGODB_URI w = Some uri ->
    falsy (Some uri) = false ->
    mongo_client_fault w uri = None ->
    ping_fault w = None ->
    records <> [] ->
    insert_many_outcome w records = InsertFail k text ->
    upload_spec w records st
      (mkOutcome
         (inl (HTTPException 500 ("MongoDB upload failed: " +:+ text)))
         {| fs := fs st; store := store st ++ firstn k records;
            open_clients := S (open_clients st) |}
         [EvConnect uri; EvPing true;
          EvInsertMany records (InsertFail k text)])
| UploadOk uri :
    environ_MONGODB_URI w = Some uri ->
    falsy (Some uri) = false ->
    mongo_client_fault w uri = None ->
    ping_fault w = None ->
    records <> [] ->
    insert_many_outcome w records = InsertOk ->
    upload_spec w records st
      (mkOutcome (inr tt)
         {| fs := fs st; store := store st ++ records;
            open_clients := open_clients st |}
         [EvConnect uri; EvPing true; EvInsertMany records InsertOk; EvClose])
| UploadNothing uri :
    environ_MONGODB_URI w = Some uri ->
    falsy (Some uri) = false ->
    mongo_client_fault w uri = None ->
    ping_fault w = None ->
    records = [] ->
    upload_spec w records st
      (mkOutcome (inr tt)
         {| fs := fs st; store := store st;
            open_clients := open_clients st |}
         [EvConnect uri; EvPing true; EvClose]).

(** The outcomes of the body of the [try ... finally], run in a fresh
    frame on a state in which the staged file [p] holds [data], each with
    whether the body has bound [os]. *)
Inductive body_spec (w : World) (p d : string) (data : list Byte.byte)
  (st : State) : bool -> Outcome PDFProcessResponse -> Prop :=
| BodyParserFault text :
    parser_init_fault w = Some text ->
    body_spec w p d data st false (mkOutcome (inl (Exception text)) st [])
| BodyParseFault text :
    parser_init_fault w = None ->
    process_pdf_to_dataframe w data = inl text ->
    body_spec w p d data st false
      (mkOutcome (inl (Exception text)) st [EvParse p (inl text)])
| BodyNoData df :
    parser_init_fault w = None ->
    process_pdf_to_dataframe w data = inr df ->
    df_empty df = true ->
    body_spec w p d data st false
      (mkOutcome
         (inl (HTTPException 400 "No data could be extracted from the PDF"))
         st [EvParse p (inr df)])
| BodyUploadFailed df o e :
    parser_init_fault w = None ->
    process_pdf_to_dataframe w data = inr df ->
    df_empty df = false ->
    upload_spec w (assemble d df) st o ->
    result o = inl e ->
    body_spec w p d data st true
      (mkOutcome (inl e) (final o) (EvParse p (inr df) :: events o))
| BodyDone df o :
    parser_init_fault w = None ->
    process_pdf_to_dataframe w data = inr df ->
    df_empty df = false ->
    upload_spec w (assemble d df) st o ->
    result o = inr tt ->
    body_spec w p d data st true
      (mkOutcome
         (inr {| success := true;
                 records_count := length (assemble d df);
                 message := "PDF processed successfully. "
                            +:+ str_of_nat (length (assemble d df))
                            +:+ " records extracted and uploaded to MongoDB.";
                 processing_time_ms :=
                   int_of_Q ((time_end w - time_start w) * 1000)%Q |})
         (final o) (EvParse p (inr df) :: events o)).

(** The outcomes of a handler from staging on. *)
Inductive ingest_spec (w : World) (data : list Byte.byte) (d : string)
  (st : State) : Outcome PDFProcessResponse -> Prop :=
| IngestNotStaged o text :
    stage_spec w data st o ->
    result o = inl (Exception text) ->
    ingest_spec w data d st
      (mkOutcome
         (inl (HTTPException 500 ("Failed to process PDF: " +:+ text)))
         (final o) (events o))
| IngestStaged p bound o :
    fs st !! p = None ->
    stage_spec w data st
      (mkOutcome (inr p)
         {| fs := <[p := data]> (fs st); store := store st;
            open_clients := open_clients st |}
         [EvTempCreate p; EvTempWrite p true]) ->
    body_spec w p d data
      {| fs := <[p := data]> (fs st); store := store st;
         open_clients := open_clients st |} bound o ->
    ingest_spec w data d st
      (mkOutcome (through_boundary (result o))
         (if bound then after_cleanup w p (final o) else final o)
         ([EvTempCreate p; EvTempWrite p true] ++ events o
          ++ (if bound then [EvUnlink p (unlink_ok w)] else []))).

(** ** Outcomes of whole requests *)

(** The error of the 10 MiB check. *)
Definition PayloadTooLarge : exn :=
  HTTPException 400 "File size must be less than 10MB".

(** The outcomes of a handler: rejected by its validation, or the outcome of
    [ingest] on the accepted bytes. *)
Inductive handle_spec (w : World) (r : request) (st : State)
  : Outcome PDFProcessResponse -> Prop :=
| HandleRejected e :
    accept w r = inl e ->
    handle_spec w r st (mkOutcome (inl e) st [])
| HandleAccepted data o :
    accept w r = inr data ->
    ingest_spec w data (request_date r) st o ->
    handle_spec w r st o.

(** The events that are calls to the document store. *)
Definition store_event (ev : event) : bool :=
  match ev with
  | EvConnect _ | EvPing _ | EvInsertMany _ _ | EvClose => true
  | _ => false
  end.

(** ** Concrete worlds and requests *)

Module Sample.

(** The four bytes [%PDF]. *)
Definition pdf_bytes : list Byte.byte := [Byte.x25; Byte.x50; Byte.x44; Byte.x46].

Definition two_rows : DataFrame :=
  {| index_len := 2;
     columns :=
       [("station", fun i => nth i [VStr "Pune"; VStr "Nashik"] VNone);
        ("rainfall_mm", fun i => nth i [VInt 12; VInt 0] VNone)] |}.

Definition no_rows : DataFrame :=
  {| index_len := 0; columns := [("station", fun _ => VNone)] |}.

(** A world given by the behaviours that the examples vary; the decoder
    knows the one payload the examples send, the framework renders its
    error as [status: detail]. *)
Definition world (uri : option string) (t0 t1 : Q)
  (frame : DataFrame) (ping_error : option string)
  (insert : insert_outcome) (unlink_error : option string) : World :=
  {| environ_MONGODB_URI := uri;
     time_start := t0;
     time_end := t1;
     b64decode := fun s =>
       if String.eqb s "JVBERg==" then inr pdf_bytes
       else inl "Incorrect padding";
     http_exception_str := fun sc dt => str_of_nat sc +:+ ": " +:+ dt;
     tmp_create_fault := None;
     tmp_names := ["/tmp/tmpk3v9x2.pdf"];
     tmp_write_fault := None;
     unlink_fault := unlink_error;
     parser_init_fault := None;
     process_pdf_to_dataframe := fun _ => inr frame;
     mongo_client_fault := fun _ => None;
     ping_fault := ping_error;
     insert_many_outcome := fun _ => insert |}.

Definition uri : option string := Some "mongodb://db.example/".

(** Everything works. *)
Definition calm : World :=
  world uri (100 # 1) (401 # 4) two_rows None InsertOk None.

(** The connection string is not configured. *)
Definition unconfigured : World :=
  world None (100 # 1) (401 # 4) two_rows None InsertOk None.

(** The store cannot be reached: the ping times out. *)
Definition unreachable : World :=
  world uri (100 # 1) (401 # 4) two_rows
    (Some "db.example:27017: timed out") InsertOk None.

(** The bulk insert fails on the second document. *)
Definition half_written : World :=
  world uri (100 # 1) (401 # 4) two_rows None
    (InsertFail 1 "batch op errors occurred") None.

(** The staged file cannot be deleted. *)
Definition sticky : World :=
  world uri (100 # 1) (401 # 4) two_rows None InsertOk
    (Some "[Errno 13] Permission denied").

(** The wall clock is set back by one second during the request. *)
Definition clock_set_back : World :=
  world uri (100 # 1) (99 # 1) two_rows None InsertOk None.

(** The parser finds no table rows. *)
Definition blank : World :=
  world uri (100 # 1) (401 # 4) no_rows None InsertOk None.

Definition st0 : State := {| fs := ∅; store := []; open_clients := 0 |}.

Definition good_upload : request :=
  Multipart {| filename := "Report.PDF"; size := Some 4%Z;
               content := pdf_bytes |} "15/01/2024".

Definition text_upload : request :=
  Multipart {| filename := "report.txt"; size := Some 4%Z;
               content := pdf_bytes |} "15/01/2024".

Definition big_text_upload : request :=
  Multipart {| filename := "report.txt"; size := Some 11534336%Z;
               content := pdf_bytes |} "15/01/2024".

Definition big_upload : request :=
  Multipart {| filename := "report.pdf"; size := Some 11534336%Z;
               content := pdf_bytes |} "15/01/2024".

Definition unsized_upload : request :=
  Multipart {| filename := "report.pdf"; size := None;
               content := pdf_bytes |} "15/01/2024".

Definition good_base64 : request :=
  Base64 {| pdf_data := "JVBERg=="; date := "15/01/2024" |}.

End Sample.

(** ** The probe endpoints of main.py *)

(** [GET /health] (main.py 53-66): builds a parser to see whether it can be
    built. *)
Definition health_check (w : World) : M (list (string * string)) :=
  try_except
    (_ ← FixedRainfallParser w;
     mret [("status", "healthy"); ("parser", "available");
           ("timestamp", "2024-01-15T12:00:00Z")])
    (fun e =>
       raise (HTTPException 500 ("Service unhealthy: " +:+ str_exn w e))).

(** [GET /test-parser] (main.py 270-281); [parser_class] is
    [str(type(parser))], which the parser module fixes. *)
Definition test_parser (w : World) (parser_class : string)
  : M (list (string * string)) :=
  try_except
    (_ ← FixedRainfallParser w;
     mret [("status", "success"); ("message", "Parser is working correctly");
           ("parser_class", parser_class)])
    (fun e =>
       raise (HTTPException 500 ("Parser test failed: " +:+ str_exn w e))).

(** ** The smoke-test script test_local.py *)

Module TestLocal.

(** What the script reads of an HTTP response: the status code, and
    [response.json()] -- the text of its error, or the decoded body as the
    f-string prints it. *)
Record Response : Type := {
  status_code : nat;
  json : string + string
}.

(** What the script does to the outside: HTTP GETs and printed lines. *)
Inductive io : Type :=
| Get (url : string)
| Print (line : string).

(** [s * n] *)
Fixpoint str_repeat (s : string) (n : nat) : string :=
  match n with
  | 0 => EmptyString
  | S n' => s +:+ str_repeat s n'
  end.

Section Script.

(** [requests.get(url)]: the text of the exception, or the response. *)
Variable requests_get : string -> string + Response.

(** The common shape of the three test functions: GET, print the status
    code, print the decoded body, return [True]; any exception is printed
    and gives [False]. *)
Definition check_endpoint (url ok_label fail_label : string)
  : bool * list io :=
  match requests_get url with
  | inl e => (false, [Get url; Print (fail_label +:+ e)])
  | inr response =>
      let status_line :=
        Print (ok_label +:+ str_of_nat (status_code response)) in
      match json response with
      | inl e => (false, [Get url; status_line; Print (fail_label +:+ e)])
      | inr body =>
          (true, [Get url; status_line; Print ("   Response: " +:+ body)])
      end
  end.

(** test_local.py 10-19 *)
Definition test_health_endpoint (base_url : string) : bool * list io :=
  check_endpoint (base_url +:+ "/health")
    "✅ Health check: " "❌ Health check failed: ".

(** test_local.py 21-30 *)
Definition test_root_endpoint (base_url : string) : bool * list io :=
  check_endpoint (base_url +:+ "/")
    "✅ Root endpoint: " "❌ Root endpoint failed: ".

(** test_local.py 32-41 *)
Definition test_parser_endpoint (base_url : string) : bool * list io :=
  check_endpoint (base_url +:+ "/test-parser")
    "✅ Parser test: " "❌ Parser test failed: ".

(** The loop of [main] (test_local.py 62-66) over the tests that are left,
    with the count of passed tests and the output so far. *)
Fixpoint run_tests (tests : list (string * (bool * list io)))
  (passed : nat) (out : list io) : nat * list io :=
  match tests with
  | [] => (passed, out)
  | (test_name, (ok, evs)) :: tests' =>
      run_tests tests'
        (if ok then S passed else passed)
        (out ++ [Print ("--- Testing " +:+ test_name +:+ " ---")]
             ++ evs ++ [Print EmptyString])
  end.

(** test_local.py 43-76; [RAILWAY_URL] is
    [os.environ.get("RAILWAY_URL")]. *)
Definition main (RAILWAY_URL : option string) : bool * list io :=
  let base_url := default "http://localhost:8000" RAILWAY_URL in
  let tests :=
    [("Health Check", test_health_endpoint base_url);
     ("Root Endpoint", test_root_endpoint base_url);
     ("Parser Test", test_parser_endpoint base_url)] in
  let total := length tests in
  let '(passed, out) := run_tests tests 0 [] in
  (passed =? total,
   [Print "🧪 Testing Railway Microservice Locally";
    Print (str_repeat "=" 50);
    Print ("Testing service at: " +:+ base_url);
    Print EmptyString]
   ++ out
   ++ [Print (str_repeat "=" 50);
       Print ("Test Results: " +:+ str_of_nat passed +:+ "/"
              +:+ str_of_nat total +:+ " tests passed");
       Print (if passed =? total
              then "🎉 All tests passed! Service is ready for Railway deployment."
              else "💥 Some tests failed. Please check the errors above.")]).

(** test_local.py 78-80: [exit(0 if success else 1)] *)
Definition exit_code (RAILWAY_URL : option string) : nat :=
  if fst (main RAILWAY_URL) then 0 else 1.

End Script.

(** The URLs fetched, in order. *)
Fixpoint gets (out : list io) : list string :=
  match out with
  | [] => []
  | Get url :: out' => url :: gets out'
  | Print _ :: out' => gets out'
  end.

(** An endpoint answers with a body that decodes as JSON. *)
Definition answers_json (requests_get : string -> string + Response)
  (url : string) : Prop :=
  exists response body,
    requests_get url = inr response /\ json response = inr body.

(** A service whose [/health] answers 500 with a JSON error body, and whose
    other endpoints answer 200. *)
Definition unhealthy_service (url : string) : string + Response :=
  if String.eqb url "http://localhost:8000/health"
  then inr {| status_code := 500;
              json := inr "{'detail': 'Service unhealthy: boom'}" |}
  else inr {| status_code := 200; json := inr "{'status': 'success'}" |}.

(** Nothing listens. *)
Definition no_service (url : string) : string + Response :=
  inl "Connection refused".

End TestLocal.

(** ** Worlds in which a collaborator faults *)

Module Faulty.

(** A world in which the parser cannot be built ([init]), the staged file
    cannot be written in full ([write]), or the parser raises on the staged file
    ([parse]); everything else works as in [Sample.calm]. *)
Definition world (init : option string) (write : option (nat * string))
  (parse : option string) : World :=
  {| environ_MONGODB_URI := Sample.uri;
     time_start := 100 # 1;
     time_end := 401 # 4;
     b64decode := fun s =>
       if String.eqb s "JVBERg==" then inr Sample.pdf_bytes
       else inl "Incorrect padding";
     http_exception_str := fun sc dt => str_of_nat sc +:+ ": " +:+ dt;
     tmp_create_fault := None;
     tmp_names := ["/tmp/tmpk3v9x2.pdf"];
     tmp_write_fault := write;
     unlink_fault := None;
     parser_init_fault := init;
     process_pdf_to_dataframe := fun _ =>
       match parse with
       | Some text => inl text
       | None => inr Sample.two_rows
       end;
     mongo_client_fault := fun _ => None;
     ping_fault := None;
     insert_many_outcome := fun _ => InsertOk |}.

Definition broken_parser : World :=
  world (Some "No module named 'pdfplumber'") None None.

Definition disk_full : World :=
  world None (Some (2, "[Errno 28] No space left on device")) None.

Definition garbled : World :=
  world None None (Some "No /Root object! - Is this really a PDF?").

(** A payload that is not base64. *)
Definition bad_base64 : PDFProcessRequest :=
  {| pdf_data := "JVBERg"; date := "15/01/2024" |}.

(** An upload of exactly 10 MiB, as reported. *)
Definition ten_mib_upload : UploadFile :=
  {| filename := "Report.PDF"; size := Some 10485760%Z;
     content := Sample.pdf_bytes |}.

(** A state in which temporary storage already holds a file. *)
Definition st_with_file : State :=
  {| fs := {[ "/tmp/keep.pdf" := Sample.pdf_bytes ]};
     store := []; open_clients := 0 |}.

(** A frame with rows but no column. *)
Definition no_columns : DataFrame := {| index_len := 3; columns := [] |}.

End Faulty.

(** ** Running the phases *)

Ltac unfold_monad :=
  unfold mbind, M_bind, F_bind, mret, M_ret, F_ret, use_os, import_os, lift,
    raise, get, put, emit, try_except, try_finally, f_try_except,
    f_try_finally, run_frame, forget.

Lemma first_fresh_lookup (files : gmap string (list Byte.byte)) names p :
  first_fresh files names = Some p -> files !! p = None.
Proof.
  induction names as [|q names IH]; simpl; [discriminate|].
  destruct (files !! q) eqn:Hq; [exact IH|].
  intros [= <-]. exact Hq.
Qed.

Lemma stage_run w data st : stage_spec w data st (stage w data st).
Proof.
  unfold stage, NamedTemporaryFile, temp_file_write.
  destruct (tmp_create_fault w) as [text|] eqn:Hc.
  { unfold_monad. simpl. now apply StageCreateFault. }
  unfold_monad. simpl.
  destruct (first_fresh (fs st) (tmp_names w)) as [p|] eqn:Hn; simpl.
  2:{ now apply StageNoName. }
  destruct (tmp_write_fault w) as [[k text]|] eqn:Hw; simpl.
  { rewrite insert_insert_eq. now apply StageWriteFault. }
  rewrite insert_insert_eq. now apply StageOk.
Qed.

(** The upload block binds [os] first, whatever the locals were. *)
Lemma upload_run w records l st :
  upload_spec w records st (forget (upload w records l st))
  /\ os (f_locals (upload w records l st)) = true.
Proof.
  unfold upload, MongoClient, ping, insert_many, close.
  unfold_monad. simpl.
  destruct (environ_MONGODB_URI w) as [[|c uri']|] eqn:Hu; simpl;
    try (split; [|reflexivity]; apply UploadNoUri; now rewrite Hu).
  set (uri := String c uri') in *.
  assert (Hf : falsy (Some uri) = false) by reflexivity.
  destruct (mongo_client_fault w uri) as [text|] eqn:Hm.
  { simpl. split; [|reflexivity]. now apply (UploadClientFault _ _ _ uri). }
  simpl.
  destruct (ping_fault w) as [text|] eqn:Hp.
  { simpl. split; [|reflexivity]. now apply UploadPingFault. }
  simpl.
  destruct records as [|r records].
  { simpl. split; [|reflexivity]. now apply UploadNothing. }
  simpl.
  destruct (insert_many_outcome w (r :: records)) as [|k text] eqn:Hi; simpl;
    (split; [|reflexivity]).
  - now apply UploadOk.
  - now apply UploadInsertFault.
Qed.

(** The upload block leaves the temporary storage alone. *)
Lemma upload_spec_fs w records st o :
  upload_spec w records st o -> fs (final o) = fs st.
Proof. now destruct 1. Qed.

Lemma body_run w p d data st :
  fs st !! p = Some data ->
  body_spec w p d data st
    (os (f_locals (body w p d {| os := false |} st)))
    (forget (body w p d {| os := false |} st)).
Proof.
  intros Hp.
  unfold body, FixedRainfallParser, parser_process_pdf_to_dataframe.
  destruct (parser_init_fault w) as [text|] eqn:Hi.
  { unfold_monad. simpl. now apply BodyParserFault. }
  unfold_monad. simpl. rewrite Hp. simpl.
  destruct (process_pdf_to_dataframe w data) as [text|df] eqn:Hd; simpl.
  { now apply BodyParseFault. }
  destruct (df_empty df) eqn:He; simpl.
  { now apply BodyNoData. }
  fold (assemble d df).
  destruct (upload_run w (assemble d df) {| os := false |} st) as [Hup Hos].
  unfold forget in Hup.
  destruct (upload w (assemble d df) {| os := false |} st)
    as [[e|[]] l st' evs] eqn:Hu; simpl in *.
  - rewrite Hos.
    now apply (BodyUploadFailed _ _ _ _ _ df (mkOutcome (inl e) st' evs) e).
  - rewrite Hos, app_nil_r.
    now apply (BodyDone _ _ _ _ _ df (mkOutcome (inr tt) st' evs)).
Qed.

(** The body never touches the temporary storage. *)
Lemma body_spec_fs w p d data st bound o :
  body_spec w p d data st bound o -> fs (final o) = fs st.
Proof.
  destruct 1; simpl; try reflexivity; eauto using upload_spec_fs.
Qed.

(** The [finally] clause with [os] bound: one attempt to delete the file,
    whose failure is swallowed. *)
Lemma cleanup_bound w p st x :
  fs st !! p = Some x ->
  cleanup w p {| os := true |} st
  = mkFOutcome (inr tt) {| os := true |} (after_cleanup w p st)
      [EvUnlink p (unlink_ok w)].
Proof.
  intros Hp. unfold cleanup, unlink, after_cleanup, unlink_ok.
  unfold_monad. simpl. rewrite Hp.
  now destruct (unlink_fault w).
Qed.

(** The [finally] clause with [os] unbound: the lookup of [os] raises, the
    bare [except] swallows it, and nothing is deleted. *)
Lemma cleanup_unbound w p st :
  cleanup w p {| os := false |} st
  = mkFOutcome (inr tt) {| os := false |} st [].
Proof. reflexivity. Qed.

Lemma parse_and_upload_run w p d data st :
  fs st !! p = Some data ->
  exists bound o, body_spec w p d data st bound o /\
    parse_and_upload w p d st
    = mkOutcome (result o)
        (if bound then after_cleanup w p (final o) else final o)
        (events o ++ if bound then [EvUnlink p (unlink_ok w)] else []).
Proof.
  intros Hp.
  pose proof (body_run w p d data st Hp) as Hb.
  unfold parse_and_upload, run_frame, f_try_finally.
  destruct (body w p d {| os := false |} st) as [r [bound] st' evs] eqn:Hbody.
  simpl in Hb. unfold forget in Hb. simpl in Hb.
  exists bound, (mkOutcome r st' evs). split; [exact Hb|].
  apply body_spec_fs in Hb. simpl in Hb.
  destruct bound.
  - rewrite (cleanup_bound w p st' data) by (rewrite Hb; exact Hp).
    reflexivity.
  - rewrite cleanup_unbound. reflexivity.
Qed.

Lemma ingest_run w data d st : ingest_spec w data d st (ingest w data d st).
Proof.
  unfold ingest.
  pose proof (stage_run w data st) as Hs.
  unfold try_except at 1. unfold mbind at 1, M_bind at 1.
  destruct (stage w data st) as [[e|p] st1 evs] eqn:Hstage.
  - (* staging raised *)
    assert (exists text, e = Exception text) as [text ->]
      by (inversion Hs; subst; eauto).
    unfold boundary, raise. simpl. rewrite app_nil_r.
    now apply (IngestNotStaged _ _ _ _ (mkOutcome (inl (Exception text)) st1 evs)).
  - (* staged under [p] *)
    inversion Hs as [| | |p' Hc Hn Hw]; subst.
    assert (Hfresh : fs st !! p = None) by eauto using first_fresh_lookup.
    set (st1 := {| fs := <[p:=data]> (fs st); store := store st;
                   open_clients := open_clients st |}) in *.
    destruct (parse_and_upload_run w p d data st1) as (bound & o & Hb & Heq).
    { apply lookup_insert_eq. }
    rewrite Heq.
    pose proof (IngestStaged w data d st p bound o Hfresh Hs Hb) as Hgoal.
    destruct (result o) as [[sc dt|text]|resp] eqn:Hr; simpl in *;
      unfold raise; simpl; rewrite ?app_nil_r; exact Hgoal.
Qed.

Lemma bind_ret_l {A B : Type} (a : A) (f : A -> M B) (st : State) :
  (mret a ≫= f) st = f a st.
Proof.
  unfold mbind, M_bind, mret, M_ret. now destruct (f a st).
Qed.

(** Each handler is its validation followed by [ingest]. *)
Lemma handle_accept w r st :
  handle w r st =
  match accept w r with
  | inl e => mkOutcome (inl e) st []
  | inr data => ingest w data (request_date r) st
  end.
Proof.
  destruct r as [pdf_file d|body0]; simpl.
  - unfold process_pdf, ingest, size_gt.
    destruct (negb (endswith (lower (filename pdf_file)) ".pdf")); [reflexivity|].
    destruct (size pdf_file) as [n|]; [|reflexivity].
    unfold try_except. rewrite bind_ret_l.
    destruct (Z.ltb (10 * 1024 * 1024) n); reflexivity.
  - unfold process_pdf_base64, ingest, try_except.
    destruct (b64decode w (pdf_data body0)) as [text|bytes]; [reflexivity|].
    now rewrite bind_ret_l.
Qed.

(** ** The record-stamping transform *)

Section Dict.

Variables (k : string) (v : value).

Lemma dict_get_set_eq (r : record) : dict_get k (dict_set k v r) = Some v.
Proof.
  induction r as [|[k' v'] r IH]; simpl.
  - now rewrite String.eqb_refl.
  - destruct (String.eqb k' k) eqn:E; simpl; now rewrite E.
Qed.

Lemma dict_get_set_ne (k0 : string) (r : record) :
  k0 <> k -> dict_get k0 (dict_set k v r) = dict_get k0 r.
Proof.
  intros Hne.
  assert (Hk : String.eqb k k0 = false) by (apply String.eqb_neq; congruence).
  induction r as [|[k' v'] r IH]; simpl.
  - now rewrite Hk.
  - destruct (String.eqb k' k) eqn:E; simpl.
    + apply String.eqb_eq in E. subst k'. now rewrite Hk.
    + now rewrite IH.
Qed.

(** Setting a key twice is setting it once. *)
Lemma dict_set_set (v' : value) (r : record) :
  dict_set k v (dict_set k v' r) = dict_set k v r.
Proof.
  induction r as [|[k1 v1] r IH]; simpl.
  - now rewrite String.eqb_refl.
  - destruct (String.eqb k1 k) eqn:E; simpl; rewrite E; [reflexivity|].
    now rewrite IH.
Qed.

(** The keys of a dict with [k] set: unchanged when [k] was there. *)
Lemma dict_set_keys_present (r : record) :
  dict_get k r <> None -> map fst (dict_set k v r) = map fst r.
Proof.
  induction r as [|[k1 v1] r IH]; simpl; [congruence|].
  destruct (String.eqb k1 k); simpl; [reflexivity|].
  intros H. now rewrite IH.
Qed.

(** Once [k] is present, setting it commutes with setting another key. *)
Lemma dict_set_comm (k0 : string) (v0 : value) (r : record) :
  k0 <> k -> dict_get k r <> None ->
  dict_set k0 v0 (dict_set k v r) = dict_set k v (dict_set k0 v0 r).
Proof.
  intros Hne.
  induction r as [|[k1 v1] r IH]; simpl; [congruence|].
  destruct (String.eqb k1 k) eqn:E1; simpl.
  - apply String.eqb_eq in E1. subst k1. intros _.
    assert (E0 : String.eqb k k0 = false) by (apply String.eqb_neq; congruence).
    rewrite E0. simpl. now rewrite String.eqb_refl.
  - intros H. destruct (String.eqb k1 k0) eqn:E0; simpl; rewrite E1.
    + reflexivity.
    + now rewrite IH.
Qed.

End Dict.

Lemma dict_get_set_present (k k0 : string) (v0 : value) (r : record) :
  dict_get k r <> None -> dict_get k (dict_set k0 v0 r) <> None.
Proof.
  intros H. destruct (String.eqb_spec k k0) as [<-|Hne].
  - now rewrite dict_get_set_eq.
  - now rewrite dict_get_set_ne.
Qed.

Section Stamping.

Variables (name : string) (v : value).

(** Building the dict of an overwritten row from a dict that already has
    the key. *)
Lemma fold_overwrite_present (l : list (string * value)) (acc : record) :
  dict_get name acc <> None ->
  fold_left set_pair (overwrite name v l) (dict_set name v acc)
  = dict_set name v (fold_left set_pair l acc).
Proof.
  revert acc. induction l as [|[k0 v0] l IH]; intros acc Hacc; simpl.
  - reflexivity.
  - destruct (String.eqb k0 name) eqn:E; unfold set_pair at 2 4; simpl.
    + apply String.eqb_eq in E. subst k0.
      rewrite dict_set_set.
      rewrite <- (dict_set_set name v v0 acc).
      apply IH. now rewrite dict_get_set_eq.
    + assert (Hne : k0 <> name) by (now apply String.eqb_neq).
      rewrite dict_set_comm by assumption.
      apply IH. now apply dict_get_set_present.
Qed.

(** The same from any dict, as soon as the row has a column [name]. *)
Lemma fold_overwrite (l : list (string * value)) (acc : record) :
  existsb (fun kv => String.eqb (fst kv) name) l = true ->
  fold_left set_pair (overwrite name v l) acc
  = dict_set name v (fold_left set_pair l acc).
Proof.
  revert acc. induction l as [|[k0 v0] l IH]; intros acc; simpl.
  - discriminate.
  - destruct (String.eqb k0 name) eqn:E; unfold set_pair at 2 4; simpl.
    + intros _. apply String.eqb_eq in E. subst k0.
      rewrite <- (dict_set_set name v v0 acc).
      apply fold_overwrite_present. now rewrite dict_get_set_eq.
    + intros H. now apply IH.
Qed.

Lemma df_row_setitem_present (df : DataFrame) (i : nat) :
  existsb (fun c => String.eqb (fst c) name) (columns df) = true ->
  df_row (df_setitem name v df) i = overwrite name v (df_row df i).
Proof.
  intros H. unfold df_row, df_setitem, overwrite. simpl. rewrite H.
  rewrite !map_map. apply map_ext. intros [k0 c]. simpl.
  now destruct (String.eqb k0 name).
Qed.

Lemma df_row_setitem_absent (df : DataFrame) (i : nat) :
  existsb (fun c => String.eqb (fst c) name) (columns df) = false ->
  df_row (df_setitem name v df) i = df_row df i ++ [(name, v)].
Proof.
  intros H. unfold df_row, df_setitem. simpl. rewrite H.
  now rewrite map_app.
Qed.

Lemma existsb_df_row (df : DataFrame) (i : nat) :
  existsb (fun kv => String.eqb (fst kv) name) (df_row df i)
  = existsb (fun c => String.eqb (fst c) name) (columns df).
Proof.
  unfold df_row. induction (columns df) as [|[k0 c] l IH]; simpl.
  - reflexivity.
  - now rewrite IH.
Qed.

(** Row by row, [df[name] = v] followed by [to_dict] is [to_dict] followed
    by [d[name] = v]. *)
Lemma dict_of_row_setitem (df : DataFrame) (i : nat) :
  dict_of_pairs (df_row (df_setitem name v df) i)
  = dict_set name v (dict_of_pairs (df_row df i)).
Proof.
  unfold dict_of_pairs.
  destruct (existsb (fun c => String.eqb (fst c) name) (columns df)) eqn:E.
  - rewrite df_row_setitem_present by exact E.
    apply (fold_overwrite (df_row df i) []).
    now rewrite existsb_df_row.
  - rewrite df_row_setitem_absent by exact E.
    now rewrite fold_left_app.
Qed.

End Stamping.

Lemma assemble_stamp (d : string) (df : DataFrame) :
  assemble d df = stamp d (to_dict_records df).
Proof.
  unfold assemble, stamp, to_dict_records. simpl.
  rewrite map_map. apply map_ext. intros i.
  apply dict_of_row_setitem.
Qed.

Lemma to_dict_records_length (df : DataFrame) :
  length (to_dict_records df) = index_len df.
Proof. unfold to_dict_records. now rewrite List.length_map, List.length_seq. Qed.

Lemma assemble_length (d : string) (df : DataFrame) :
  length (assemble d df) = index_len df.
Proof. rewrite assemble_stamp. unfold stamp. now rewrite List.length_map, to_dict_records_length. Qed.

Lemma assemble_dated (d : string) (df : DataFrame) :
  Forall (fun r => dict_get "date" r = Some (VStr d)) (assemble d df).
Proof.
  rewrite assemble_stamp. unfold stamp. apply List.Forall_forall.
  intros r Hr. apply in_map_iff in Hr as (r0 & <- & _).
  apply dict_get_set_eq.
Qed.

(** Row by row: the stamped batch holds, for every index of the frame in
    order, the dict of that row with its [date] key set. *)
Lemma assemble_rows (d : string) (df : DataFrame) :
  assemble d df
  = map (fun i => dict_set "date" (VStr d) (dict_of_pairs (df_row df i)))
      (seq 0 (index_len df)).
Proof.
  rewrite assemble_stamp. unfold stamp, to_dict_records.
  now rewrite map_map.
Qed.

(** C7: the stamping transform of the handlers is total and exact.  For a
    frame of [index_len] rows it returns [index_len] records -- as many as
    the parsed records [to_dict_records] -- namely, for each row in index
    order, the dict of the cells of that row with the [date] key set to the
    supplied string, verbatim; it is the parsed records with [date] set on
    each; the [date] field of every output is the supplied string whatever
    the row held under that name; every other field is the field of the
    parsed record. *)
Theorem stamping_is_total_and_exact (d : string) (df : DataFrame) :
  length (assemble d df) = index_len df
  /\ length (to_dict_records df) = index_len df
  /\ assemble d df
     = map (fun i => dict_set "date" (VStr d) (dict_of_pairs (df_row df i)))
         (seq 0 (index_len df))
  /\ assemble d df = stamp d (to_dict_records df)
  /\ Forall (fun r => dict_get "date" r = Some (VStr d)) (assemble d df)
  /\ (forall (r : record) (old : value),
        dict_set "date" (VStr d) (dict_set "date" old r)
        = dict_set "date" (VStr d) r)
  /\ (forall (r : record) (key : string),
        dict_get key (dict_set "date" (VStr d) r)
        = if String.eqb key "date" then Some (VStr d) else dict_get key r).
Proof.
  split; [apply assemble_length|].
  split; [apply to_dict_records_length|].
  split; [apply assemble_rows|].
  split; [apply assemble_stamp|].
  split; [apply assemble_dated|].
  split; [intros r old; apply dict_set_set|].
  intros r key. destruct (String.eqb_spec key "date") as [->|Hne].
  - apply dict_get_set_eq.
  - now apply dict_get_set_ne.
Qed.

Lemma stamping_is_total_and_exact_witness :
  length (assemble "15/01/2024" Sample.two_rows) = 2
  /\ assemble "15/01/2024" Sample.two_rows
     = [[("station", VStr "Pune"); ("rainfall_mm", VInt 12);
         ("date", VStr "15/01/2024")];
        [("station", VStr "Nashik"); ("rainfall_mm", VInt 0);
         ("date", VStr "15/01/2024")]]
  /\ assemble "2024-01-15"
       {| index_len := 1;
          columns := [("date", fun _ => VStr "01/01/1999");
                      ("mm", fun _ => VInt 7);
                      ("date", fun _ => VNone)] |}
     = [[("date", VStr "2024-01-15"); ("mm", VInt 7)]].
Proof.
  split; [|split].
  - exact (proj1 (stamping_is_total_and_exact "15/01/2024" Sample.two_rows)).
  - rewrite (proj1 (proj2 (proj2 (stamping_is_total_and_exact
                                    "15/01/2024" Sample.two_rows)))).
    reflexivity.
  - rewrite (proj1 (proj2 (proj2 (stamping_is_total_and_exact "2024-01-15"
               {| index_len := 1;
                  columns := [("date", fun _ => VStr "01/01/1999");
                              ("mm", fun _ => VInt 7);
                              ("date", fun _ => VNone)] |})))).
    reflexivity.
Defined.

(** ** Validation *)

(** C5: a multipart request whose file name does not end in [.pdf], case
    ignored, fails with the 400 error [File must be a PDF]; nothing has
    happened by then: no event is recorded, so no temporary file was
    created, and the state is the initial one. *)
Theorem bad_extension_rejected_before_staging
  (w : World) (pdf_file : UploadFile) (d : string) (st : State) :
  endswith (lower (filename pdf_file)) ".pdf" = false ->
  process_pdf w pdf_file d st
  = mkOutcome (inl (HTTPException 400 "File must be a PDF")) st [].
Proof.
  intros H. change (process_pdf w pdf_file d st) with (handle w (Multipart pdf_file d) st).
  rewrite handle_accept. simpl. now rewrite H.
Qed.

Lemma bad_extension_rejected_before_staging_witness :
  endswith (lower "report.txt") ".pdf" = false /\
  process_pdf Sample.calm
    {| filename := "report.txt"; size := Some 4%Z; content := Sample.pdf_bytes |}
    "15/01/2024" Sample.st0
  = mkOutcome (inl (HTTPException 400 "File must be a PDF")) Sample.st0 [].
Proof.
  split; [reflexivity|].
  apply bad_extension_rejected_before_staging. reflexivity.
Defined.

(** C10: a multipart request with a [.pdf] file name whose upload reports
    no size fails in the size comparison itself: the [TypeError] reaches the
    outer handler and becomes the 500 error [Failed to process PDF: ...],
    before anything is staged.  With a size present the comparison returns
    a boolean and never raises. *)
Theorem unreported_size_is_internal_error
  (w : World) (pdf_file : UploadFile) (d : string) (st : State) :
  endswith (lower (filename pdf_file)) ".pdf" = true ->
  size pdf_file = None ->
  process_pdf w pdf_file d st
  = mkOutcome
      (inl (HTTPException 500
              ("Failed to process PDF: " +:+
               "'>' not supported between instances of 'NoneType' and 'int'")))
      st []
  /\ forall n : Z,
       size_gt (Some n) (10 * 1024 * 1024) st
       = mkOutcome (inr (Z.ltb (10 * 1024 * 1024) n)) st [].
Proof.
  intros Hext Hsize. split; [|reflexivity].
  change (process_pdf w pdf_file d st) with (handle w (Multipart pdf_file d) st).
  rewrite handle_accept. simpl. now rewrite Hext, Hsize.
Qed.

Lemma unreported_size_is_internal_error_witness :
  process_pdf Sample.calm
    {| filename := "report.pdf"; size := None; content := Sample.pdf_bytes |}
    "15/01/2024" Sample.st0
  = mkOutcome
      (inl (HTTPException 500
              "Failed to process PDF: '>' not supported between instances of 'NoneType' and 'int'"))
      Sample.st0 [].
Proof.
  apply (unreported_size_is_internal_error Sample.calm
           {| filename := "report.pdf"; size := None;
              content := Sample.pdf_bytes |}); reflexivity.
Defined.

(** The failures of [ingest] are never the error of the size check. *)
Lemma ingest_never_too_large w data d st :
  result (ingest w data d st) <> inl PayloadTooLarge.
Proof.
  generalize (ingest_run w data d st).
  generalize (ingest w data d st). intros o Ho.
  destruct Ho as [o text Hs Hres | p bound o Hfresh Hs Hb]; simpl;
    [discriminate|].
  destruct Hb as [text|text|df|df o e ? ? ? Hup Hres|df o ? ? ? Hup Hres];
    simpl; try discriminate.
  destruct Hup; simpl in Hres; try discriminate;
    injection Hres as <-; simpl; discriminate.
Qed.

(** C4, negated as stated: a multipart request above 10 MiB whose name does
    not end in [.pdf] fails on the extension, not on the size. *)
Lemma oversize_not_always_too_large :
  ~ (forall (w : World) (pdf_file : UploadFile) (d : string) (st : State)
            (n : Z),
       size pdf_file = Some n -> (10 * 1024 * 1024 < n)%Z ->
       result (process_pdf w pdf_file d st) = inl PayloadTooLarge).
Proof.
  intros H.
  specialize (H Sample.calm
                {| filename := "report.txt"; size := Some 11534336%Z;
                   content := Sample.pdf_bytes |}
                "15/01/2024" Sample.st0 11534336%Z eq_refl eq_refl).
  vm_compute in H. discriminate H.
Qed.

(** C4, amended: a multipart request whose file name ends in [.pdf] and
    whose reported size exceeds 10 MiB fails with the 400 error of the size
    check, before anything is staged; the base64 handler never fails with
    that error, and on a payload that decodes to [bytes] it is [ingest] on
    [bytes], whatever their number. *)
Theorem size_bound_multipart_only :
  (forall (w : World) (pdf_file : UploadFile) (d : string) (st : State)
          (n : Z),
     endswith (lower (filename pdf_file)) ".pdf" = true ->
     size pdf_file = Some n -> (10 * 1024 * 1024 < n)%Z ->
     process_pdf w pdf_file d st = mkOutcome (inl PayloadTooLarge) st [])
  /\ (forall (w : World) (request : PDFProcessRequest) (st : State),
        result (process_pdf_base64 w request st) <> inl PayloadTooLarge)
  /\ (forall (w : World) (request : PDFProcessRequest) (st : State)
             (bytes : list Byte.byte),
        b64decode w (pdf_data request) = inr bytes ->
        process_pdf_base64 w request st = ingest w bytes (date request) st).
Proof.
  split; [|split].
  - intros w pdf_file d st n Hext Hsize Hn.
    change (process_pdf w pdf_file d st)
      with (handle w (Multipart pdf_file d) st).
    rewrite handle_accept. simpl. rewrite Hext, Hsize. simpl.
    apply Z.ltb_lt in Hn. now rewrite Hn.
  - intros w request st.
    change (process_pdf_base64 w request st) with (handle w (Base64 request) st).
    rewrite handle_accept. simpl.
    destruct (b64decode w (pdf_data request)) as [text|bytes].
    + simpl. discriminate.
    + apply ingest_never_too_large.
  - intros w request st bytes Hdec.
    change (process_pdf_base64 w request st) with (handle w (Base64 request) st).
    rewrite handle_accept. simpl. now rewrite Hdec.
Qed.

Lemma size_bound_multipart_only_witness :
  process_pdf Sample.calm
    {| filename := "report.pdf"; size := Some 11534336%Z;
       content := Sample.pdf_bytes |}
    "15/01/2024" Sample.st0
  = mkOutcome (inl PayloadTooLarge) Sample.st0 []
  /\ process_pdf_base64 Sample.calm
       {| pdf_data := "JVBERg=="; date := "15/01/2024" |} Sample.st0
     = ingest Sample.calm Sample.pdf_bytes "15/01/2024" Sample.st0.
Proof.
  split.
  - apply (proj1 size_bound_multipart_only Sample.calm
             {| filename := "report.pdf"; size := Some 11534336%Z;
                content := Sample.pdf_bytes |}
             "15/01/2024" Sample.st0 11534336%Z); reflexivity.
  - apply (proj2 (proj2 size_bound_multipart_only) Sample.calm
             {| pdf_data := "JVBERg=="; date := "15/01/2024" |}
             Sample.st0 Sample.pdf_bytes).
    reflexivity.
Defined.

(** ** Whole requests *)

Lemma handle_run w r st : handle_spec w r st (handle w r st).
Proof.
  rewrite handle_accept. destruct (accept w r) as [e|data] eqn:Hacc.
  - now apply HandleRejected.
  - apply (HandleAccepted _ _ _ data); [exact Hacc|apply ingest_run].
Qed.

(** Case analysis on every path of a request. *)
Ltac paths w r st :=
  let Ho := fresh "Ho" in
  pose proof (handle_run w r st) as Ho;
  let out := fresh "out" in
  set (out := handle w r st) in *; clearbody out;
  destruct Ho as [err Hacc | bytes out Hacc Hing];
  [ | destruct Hing as [out msg Hstage Hres | tmp bound out Hfresh Hstage Hbody];
      [ destruct Hstage; simpl in Hres; try discriminate Hres
      | destruct Hbody as [msg Hinit | msg Hinit Hparse
                          | frame Hinit Hparse Hempty
                          | frame out err Hinit Hparse Hempty Hup Hres
                          | frame out Hinit Hparse Hempty Hup Hres];
        [ | | | destruct Hup; simpl in Hres; try discriminate Hres;
                injection Hres as <-
              | destruct Hup; simpl in Hres; try discriminate Hres ] ] ];
  simpl in *.

(** Membership in an explicit list of events. *)
Ltac in_events H :=
  simpl in H; repeat (rewrite List.in_app_iff in H; simpl in H);
  intuition (try discriminate).

Lemma store_after_cleanup w p st :
  store (after_cleanup w p st) = store st.
Proof. unfold after_cleanup. now destruct (unlink_fault w). Qed.

Lemma open_clients_after_cleanup w p st :
  open_clients (after_cleanup w p st) = open_clients st.
Proof. unfold after_cleanup. now destruct (unlink_fault w). Qed.

Lemma df_empty_no_rows (df : DataFrame) :
  length (to_dict_records df) = 0 -> df_empty df = true.
Proof.
  rewrite to_dict_records_length. unfold df_empty. now intros ->.
Qed.

(** C6: a request, to either endpoint, whose extraction returns a frame of
    zero records fails with the 400 error [No data could be extracted from
    the PDF], and the store holds what it held before. *)
Theorem no_records_no_data
  (w : World) (r : request) (st : State) (p : string) (df : DataFrame) :
  In (EvParse p (inr df)) (events (handle w r st)) ->
  length (to_dict_records df) = 0 ->
  result (handle w r st)
  = inl (HTTPException 400 "No data could be extracted from the PDF")
  /\ store (final (handle w r st)) = store st.
Proof.
  intros Hin Hlen. apply df_empty_no_rows in Hlen.
  paths w r st; try solve [in_events Hin];
    try solve [in_events Hin; congruence];
    (split; [reflexivity|now rewrite ?store_after_cleanup]).
Qed.

Lemma no_records_no_data_witness :
  result (handle Sample.blank Sample.good_base64 Sample.st0)
  = inl (HTTPException 400 "No data could be extracted from the PDF")
  /\ store (final (handle Sample.blank Sample.good_base64 Sample.st0))
     = store Sample.st0.
Proof.
  apply (no_records_no_data Sample.blank Sample.good_base64 Sample.st0
           "/tmp/tmpk3v9x2.pdf" Sample.no_rows).
  - vm_compute. do 2 right. left. reflexivity.
  - reflexivity.
Defined.

(** ** Configuration *)

(** C1, negated as stated: with the variable absent, a request that fails
    validation is answered with its validation error, a 400. *)
Lemma missing_uri_not_always_configuration_error :
  ~ (forall (w : World) (r : request) (st : State),
       environ_MONGODB_URI w = None ->
       exists detail : string,
         result (handle w r st) = inl (HTTPException 500 detail)).
Proof.
  intros H.
  destruct (H Sample.unconfigured Sample.text_upload Sample.st0 eq_refl)
    as [detail Hd].
  vm_compute in Hd. discriminate Hd.
Qed.

(** C1, amended: with the variable absent or empty, no request opens a
    client, pings, inserts or closes, and the store and the number of open
    clients are what they were; a request that got as far as a non-empty
    extracted frame fails with a 500 raised in the upload block. *)
Theorem missing_uri_fails_without_persistence
  (w : World) (r : request) (st : State) :
  falsy (environ_MONGODB_URI w) = true ->
  (forall (p : string) (df : DataFrame),
     In (EvParse p (inr df)) (events (handle w r st)) ->
     df_empty df = false ->
     result (handle w r st)
     = inl (HTTPException 500
              ("MongoDB upload failed: " +:+
               http_exception_str w 500
                 "MONGODB_URI environment variable not set")))
  /\ store (final (handle w r st)) = store st
  /\ open_clients (final (handle w r st)) = open_clients st
  /\ Forall (fun ev => store_event ev = false) (events (handle w r st)).
Proof.
  intros Hf.
  paths w r st;
    try match goal with
        | H : environ_MONGODB_URI w = Some _ |- _ =>
            rewrite H in Hf; simpl in Hf; congruence
        end;
    rewrite ?store_after_cleanup, ?open_clients_after_cleanup;
    (split; [intros ? ? Hin He; in_events Hin; congruence|]);
    repeat split; repeat constructor.
Qed.

Lemma missing_uri_fails_without_persistence_witness :
  result (handle Sample.unconfigured Sample.good_upload Sample.st0)
  = inl (HTTPException 500
           "MongoDB upload failed: 500: MONGODB_URI environment variable not set")
  /\ store (final (handle Sample.unconfigured Sample.good_upload Sample.st0))
     = []
  /\ open_clients
       (final (handle Sample.unconfigured Sample.good_upload Sample.st0)) = 0.
Proof.
  destruct (missing_uri_fails_without_persistence
              Sample.unconfigured Sample.good_upload Sample.st0 eq_refl)
    as (Hres & Hstore & Hopen & _).
  split; [|split; assumption].
  apply (Hres "/tmp/tmpk3v9x2.pdf" Sample.two_rows).
  - vm_compute. do 2 right. left. reflexivity.
  - reflexivity.
Defined.

(** ** Persistence *)

(** C2, negated as stated: a bulk insert that fails on the second of two
    documents leaves a request that reports failure and a store that gained
    one document of the batch of two. *)
Lemma failed_request_can_leave_partial_batch :
  let o := handle Sample.half_written Sample.good_upload Sample.st0 in
  let batch := assemble "15/01/2024" Sample.two_rows in
  (exists e, result o = inl e)
  /\ length batch = 2
  /\ store (final o) = store Sample.st0 ++ firstn 1 batch
  /\ store (final o) <> store Sample.st0
  /\ store (final o) <> store Sample.st0 ++ batch.
Proof.
  vm_compute. repeat split; try discriminate.
  eexists. reflexivity.
Qed.

(** C2, amended: a request that succeeds has added the whole stamped batch
    to the store, in order, and reports its length; a request that fails
    has left the store as it was, or has added the first [k] records of the
    batch that a failed bulk insert had written.  Nothing is rolled back. *)
Theorem store_gains_batch_or_prefix (w : World) (r : request) (st : State) :
  match result (handle w r st) with
  | inr resp =>
      exists (p : string) (df : DataFrame),
        In (EvParse p (inr df)) (events (handle w r st))
        /\ store (final (handle w r st))
           = store st ++ assemble (request_date r) df
        /\ records_count resp = length (assemble (request_date r) df)
  | inl _ =>
      store (final (handle w r st)) = store st
      \/ exists (p : string) (df : DataFrame) (k : nat) (text : string),
           In (EvParse p (inr df)) (events (handle w r st))
           /\ In (EvInsertMany (assemble (request_date r) df)
                    (InsertFail k text))
                 (events (handle w r st))
           /\ store (final (handle w r st))
              = store st ++ firstn k (assemble (request_date r) df)
  end.
Proof.
  paths w r st; rewrite ?store_after_cleanup; simpl; auto.
  - (* the bulk insert failed *)
    right. exists tmp, frame, k, text. simpl. auto 10.
  - (* uploaded *)
    exists tmp, frame. simpl. auto 10.
  - (* nothing to upload *)
    exists tmp, frame. simpl.
    match goal with H : assemble _ _ = [] |- _ => rewrite H end.
    rewrite app_nil_r. auto 10.
Qed.

(** X14: a client that a request opened is closed exactly when the request
    succeeds: every failure after the client was built leaves it open. *)
Lemma client_closed_only_on_success
  (w : World) (r : request) (st : State) (uri : string) :
  In (EvConnect uri) (events (handle w r st)) ->
  match result (handle w r st) with
  | inr _ =>
      In EvClose (events (handle w r st))
      /\ open_clients (final (handle w r st)) = open_clients st
  | inl _ =>
      ~ In EvClose (events (handle w r st))
      /\ open_clients (final (handle w r st)) = S (open_clients st)
  end.
Proof.
  intros Hin.
  paths w r st; try solve [in_events Hin];
    rewrite ?open_clients_after_cleanup; simpl;
    (split; [|reflexivity]); try tauto;
    intros Hc; in_events Hc.
Qed.

(** C3, at the failing input: the store does not answer the ping.  The
    request fails with a 500, the client that was built for it is never
    closed, and one more client is open after the request than before. *)
Theorem client_left_open_when_ping_fails :
  let o := handle Sample.unreachable Sample.good_upload Sample.st0 in
  result o
  = inl (HTTPException 500 "MongoDB upload failed: db.example:27017: timed out")
  /\ In (EvConnect "mongodb://db.example/") (events o)
  /\ ~ In EvClose (events o)
  /\ open_clients (final o) = S (open_clients Sample.st0).
Proof.
  vm_compute. repeat split.
  - do 3 right. left. reflexivity.
  - intros H. repeat (destruct H as [H|H]; [discriminate H|]). exact H.
Qed.

(** ** Temporary files *)

(** C8, at the failing input: the parser finds no table row.  The request
    is answered with the 400 no-data error; the [finally] clause runs, but
    [os] is a local of the handler that line 124 has not bound yet, so
    [os.unlink] raises, the bare [except] swallows it, and the staged file
    is still in storage when the request completes -- although no deletion
    fails: none is attempted. *)
Theorem staged_file_left_when_no_data :
  let o := handle Sample.blank Sample.good_upload Sample.st0 in
  unlink_fault Sample.blank = None
  /\ result o
     = inl (HTTPException 400 "No data could be extracted from the PDF")
  /\ In (EvTempCreate "/tmp/tmpk3v9x2.pdf") (events o)
  /\ (forall ok, ~ In (EvUnlink "/tmp/tmpk3v9x2.pdf" ok) (events o))
  /\ fs (final o) !! "/tmp/tmpk3v9x2.pdf" = Some Sample.pdf_bytes.
Proof.
  vm_compute. repeat split.
  - left. reflexivity.
  - intros ok H. repeat (destruct H as [H|H]; [discriminate H|]). exact H.
Qed.

(** ** The success response *)

Lemma int_of_Q_nonneg (q : Q) : (0 <= q)%Q -> (0 <= int_of_Q q)%Z.
Proof.
  unfold Qle, int_of_Q. simpl. intros H.
  apply Z.quot_pos; lia.
Qed.

Lemma elapsed_nonneg (t0 t1 : Q) :
  (t0 <= t1)%Q -> (0 <= int_of_Q ((t1 - t0) * 1000))%Z.
Proof.
  intros H. apply int_of_Q_nonneg.
  apply Qmult_le_0_compat; [|discriminate].
  now apply (proj1 (Qle_minus_iff t0 t1)).
Qed.

Lemma append_assoc (a b c : string) : (a +:+ b) +:+ c = a +:+ (b +:+ c).
Proof.
  induction a as [|x a IH]; [reflexivity|].
  change (String x ((a +:+ b) +:+ c) = String x (a +:+ (b +:+ c))).
  now f_equal.
Qed.

Lemma message_names_count (n : nat) :
  contains (str_of_nat n +:+ " records")
    ("PDF processed successfully. " +:+ str_of_nat n
     +:+ " records extracted and uploaded to MongoDB.").
Proof.
  exists "PDF processed successfully. ", " extracted and uploaded to MongoDB.".
  now rewrite append_assoc.
Qed.

(** C9, negated as stated: when the wall clock is set back during the
    request, a successful response carries a negative processing time. *)
Lemma elapsed_time_negative_when_clock_set_back :
  let o := handle Sample.clock_set_back Sample.good_upload Sample.st0 in
  In (EvParse "/tmp/tmpk3v9x2.pdf" (inr Sample.two_rows)) (events o)
  /\ length (to_dict_records Sample.two_rows) = 2
  /\ In (EvInsertMany (assemble "15/01/2024" Sample.two_rows) InsertOk)
        (events o)
  /\ exists resp : PDFProcessResponse,
       result o = inr resp /\ (processing_time_ms resp < 0)%Z.
Proof.
  vm_compute. repeat split.
  - do 2 right. left. reflexivity.
  - do 5 right. left. reflexivity.
  - eexists. split; reflexivity.
Qed.

(** C9, amended: a request, to either endpoint, whose extraction returns
    [N > 0] records and whose bulk insert succeeds is answered with
    [success = true], [records_count = N] and a message in which [N records]
    occurs, [N] in decimal; the store has gained exactly the [N] inserted
    documents, each with the [date] field equal to the date string of the
    request; and the processing time is not negative when the clock reading
    taken before the response is not earlier than the one taken at entry. *)
Theorem success_response_and_store
  (w : World) (r : request) (st : State)
  (p : string) (df : DataFrame) (docs : list record) :
  In (EvParse p (inr df)) (events (handle w r st)) ->
  0 < length (to_dict_records df) ->
  In (EvInsertMany docs InsertOk) (events (handle w r st)) ->
  exists resp : PDFProcessResponse,
    result (handle w r st) = inr resp
    /\ success resp = true
    /\ records_count resp = length (to_dict_records df)
    /\ contains (str_of_nat (length (to_dict_records df)) +:+ " records")
         (message resp)
    /\ ((time_start w <= time_end w)%Q -> (0 <= processing_time_ms resp)%Z)
    /\ store (final (handle w r st)) = store st ++ docs
    /\ length docs = length (to_dict_records df)
    /\ Forall (fun doc => dict_get "date" doc = Some (VStr (request_date r)))
         docs.
Proof.
  intros Hparsed Hpos Hins.
  paths w r st; try solve [in_events Hins].
  assert (df = frame) as -> by (in_events Hparsed; congruence).
  assert (docs = assemble (request_date r) frame) as ->
    by (in_events Hins; congruence).
  rewrite store_after_cleanup. simpl.
  assert (Hlen : length (assemble (request_date r) frame)
                 = length (to_dict_records frame))
    by (now rewrite assemble_length, to_dict_records_length).
  eexists. split; [reflexivity|]. simpl. rewrite Hlen.
  repeat split; auto using message_names_count, elapsed_nonneg, assemble_dated.
Qed.

Lemma success_response_and_store_witness :
  exists resp : PDFProcessResponse,
    result (handle Sample.calm Sample.good_upload Sample.st0) = inr resp
    /\ success resp = true
    /\ records_count resp = 2
    /\ contains "2 records" (message resp)
    /\ (0 <= processing_time_ms resp)%Z
    /\ store (final (handle Sample.calm Sample.good_upload Sample.st0))
       = assemble "15/01/2024" Sample.two_rows
    /\ Forall (fun doc => dict_get "date" doc = Some (VStr "15/01/2024"))
         (assemble "15/01/2024" Sample.two_rows).
Proof.
  destruct (success_response_and_store
              Sample.calm Sample.good_upload Sample.st0
              "/tmp/tmpk3v9x2.pdf" Sample.two_rows
              (assemble "15/01/2024" Sample.two_rows))
    as (resp & Hres & Hok & Hcount & Hmsg & Htime & Hstore & _ & Hdate).
  - vm_compute. do 2 right. left. reflexivity.
  - vm_compute. lia.
  - vm_compute. do 5 right. left. reflexivity.
  - exists resp. repeat split; try assumption.
    apply Htime. vm_compute. discriminate.
Defined.

(** ** Further properties of the handlers *)

(** *** What validation has decided *)

Lemma accept_inl w r err :
  accept w r = inl err ->
  match r with
  | Multipart pdf_file _ =>
      (endswith (lower (filename pdf_file)) ".pdf" = false
       /\ err = HTTPException 400 "File must be a PDF")
      \/ (endswith (lower (filename pdf_file)) ".pdf" = true
          /\ size pdf_file = None
          /\ exists text, err = HTTPException 500 text)
      \/ (endswith (lower (filename pdf_file)) ".pdf" = true
          /\ (exists n, size pdf_file = Some n /\ (10 * 1024 * 1024 < n)%Z)
          /\ err = PayloadTooLarge)
  | Base64 body =>
      exists text,
        b64decode w (pdf_data body) = inl text
        /\ err = HTTPException 400 ("Invalid base64 data: " +:+ text)
  end.
Proof.
  destruct r as [pdf_file d|body0]; simpl.
  - destruct (endswith (lower (filename pdf_file)) ".pdf"); simpl.
    + destruct (size pdf_file) as [n|].
      * destruct (Z.ltb (10 * 1024 * 1024) n) eqn:Hn; [|discriminate].
        intros [= <-]. right. right. apply Z.ltb_lt in Hn. eauto.
      * intros [= <-]. right. left. eauto.
    + intros [= <-]. now left.
  - destruct (b64decode w (pdf_data body0)) as [text|bytes]; [|discriminate].
    intros [= <-]. eauto.
Qed.

Lemma accept_inr w r data :
  accept w r = inr data ->
  match r with
  | Multipart pdf_file _ =>
      endswith (lower (filename pdf_file)) ".pdf" = true
      /\ (exists n, size pdf_file = Some n /\ (n <= 10 * 1024 * 1024)%Z)
      /\ data = content pdf_file
  | Base64 body => b64decode w (pdf_data body) = inr data
  end.
Proof.
  destruct r as [pdf_file d|body0]; simpl.
  - destruct (endswith (lower (filename pdf_file)) ".pdf"); simpl;
      [|discriminate].
    destruct (size pdf_file) as [n|]; [|discriminate].
    destruct (Z.ltb (10 * 1024 * 1024) n) eqn:Hn; [discriminate|].
    intros [= <-]. apply Z.ltb_ge in Hn. eauto.
  - destruct (b64decode w (pdf_data body0)) as [text|bytes]; [discriminate|].
    now intros [= <-].
Qed.

(** Comparing two error details that start with different literals. *)
Ltac details H := vm_compute in H; discriminate H.

(** X1: the two validation errors of the multipart endpoint name their
    cause: the answer is the 400 [File must be a PDF] exactly when the file
    name does not end in [.pdf], and the 400 of the size check exactly when
    the name ends in [.pdf] and the reported size is above 10 MiB -- a size
    of exactly 10 MiB passes. *)
Theorem multipart_errors_name_their_cause
  (w : World) (pdf_file : UploadFile) (d : string) (st : State) :
  (result (process_pdf w pdf_file d st)
   = inl (HTTPException 400 "File must be a PDF")
   <-> endswith (lower (filename pdf_file)) ".pdf" = false)
  /\ (result (process_pdf w pdf_file d st) = inl PayloadTooLarge
      <-> endswith (lower (filename pdf_file)) ".pdf" = true
          /\ exists n, size pdf_file = Some n /\ (10 * 1024 * 1024 < n)%Z).
Proof.
  change (process_pdf w pdf_file d st)
    with (handle w (Multipart pdf_file d) st).
  split; split.
  - intros Hr.
    paths w (Multipart pdf_file d) st; try discriminate Hr;
      try solve [details Hr].
    apply (accept_inl w (Multipart pdf_file d)) in Hacc. injection Hr as ->.
    destruct Hacc as [[H _]|[(_ & _ & text & H)|(_ & _ & H)]];
      [exact H|discriminate H|discriminate H].
  - intros Hext. rewrite handle_accept. simpl. now rewrite Hext.
  - intros Hr.
    paths w (Multipart pdf_file d) st; try discriminate Hr;
      try solve [details Hr].
    apply (accept_inl w (Multipart pdf_file d)) in Hacc. injection Hr as ->.
    destruct Hacc as [[_ H]|[(_ & _ & text & H)|(He & Hn & _)]];
      [discriminate H|discriminate H|auto].
  - intros (Hext & n & Hsize & Hn).
    rewrite handle_accept. simpl. rewrite Hext, Hsize. simpl.
    apply Z.ltb_lt in Hn. now rewrite Hn.
Qed.

Lemma multipart_errors_name_their_cause_witness :
  result (process_pdf Sample.calm Faulty.ten_mib_upload "15/01/2024" Sample.st0)
  <> inl PayloadTooLarge.
Proof.
  intros H.
  apply (proj2 (multipart_errors_name_their_cause
                  Sample.calm Faulty.ten_mib_upload "15/01/2024" Sample.st0))
    in H.
  destruct H as (_ & n & Hn & Hlt). injection Hn as <-. vm_compute in Hlt.
  discriminate Hlt.
Defined.

(** X2: the base64 endpoint answers with the 400 [Invalid base64 data: ...]
    exactly when the payload cannot be decoded; the detail then carries the
    decoder's message, nothing has been staged and the state is untouched. *)
Theorem base64_error_names_its_cause
  (w : World) (request : PDFProcessRequest) (st : State) :
  ((exists text,
      result (process_pdf_base64 w request st)
      = inl (HTTPException 400 ("Invalid base64 data: " +:+ text)))
   <-> exists text, b64decode w (pdf_data request) = inl text)
  /\ forall text,
       b64decode w (pdf_data request) = inl text ->
       process_pdf_base64 w request st
       = mkOutcome
           (inl (HTTPException 400 ("Invalid base64 data: " +:+ text))) st [].
Proof.
  change (process_pdf_base64 w request st) with (handle w (Base64 request) st).
  split; [split|].
  - intros [text Hr].
    paths w (Base64 request) st; try discriminate Hr;
      try solve [details Hr].
    apply (accept_inl w (Base64 request)) in Hacc.
    destruct Hacc as (text' & Hdec & _). eauto.
  - intros [text Hdec]. exists text.
    rewrite handle_accept. simpl. now rewrite Hdec.
  - intros text Hdec. rewrite handle_accept. simpl. now rewrite Hdec.
Qed.

Lemma base64_error_names_its_cause_witness :
  process_pdf_base64 Sample.calm Faulty.bad_base64 Sample.st0
  = mkOutcome
      (inl (HTTPException 400 "Invalid base64 data: Incorrect padding"))
      Sample.st0 [].
Proof.
  apply (proj2 (base64_error_names_its_cause
                  Sample.calm Faulty.bad_base64 Sample.st0)
           "Incorrect padding").
  reflexivity.
Defined.

(** X3: a request, to either endpoint, is answered with the 400 [No data
    could be extracted from the PDF] exactly when the parser returned a
    frame that is empty -- no rows, or rows but no column. *)
Theorem no_data_iff_empty_frame (w : World) (r : request) (st : State) :
  result (handle w r st)
  = inl (HTTPException 400 "No data could be extracted from the PDF")
  <-> exists (p : string) (df : DataFrame),
        In (EvParse p (inr df)) (events (handle w r st))
        /\ df_empty df = true.
Proof.
  split.
  - intros Hr.
    paths w r st; try discriminate Hr; try solve [details Hr].
    + exfalso. injection Hr as ->.
      destruct r as [pdf_file d|body0].
      * apply (accept_inl w (Multipart pdf_file d)) in Hacc.
        destruct Hacc as [[_ H]|[(_ & _ & text & H)|(_ & _ & H)]];
          discriminate H.
      * apply (accept_inl w (Base64 body0)) in Hacc.
        destruct Hacc as (text & _ & H). details H.
    + exists tmp, frame. split; [|assumption]. do 2 right. left. reflexivity.
  - intros (p & df & Hin & He).
    paths w r st; solve [in_events Hin; congruence].
Qed.

Lemma no_data_iff_empty_frame_witness :
  result (handle
            (Sample.world Sample.uri (100 # 1) (401 # 4) Faulty.no_columns
               None InsertOk None)
            Sample.good_upload Sample.st0)
  = inl (HTTPException 400 "No data could be extracted from the PDF").
Proof.
  apply (proj2 (no_data_iff_empty_frame _ _ _)).
  exists "/tmp/tmpk3v9x2.pdf", Faulty.no_columns. split; [|reflexivity].
  vm_compute. do 2 right. left. reflexivity.
Defined.

(** X4: an answer with status 400 means that the store was never called:
    no client was built, nothing was inserted, the store and the number of
    open clients are what they were; and its detail is one of the four
    messages of validation and extraction. *)
Theorem status_400_means_store_untouched
  (w : World) (r : request) (st : State) (detail : string) :
  result (handle w r st) = inl (HTTPException 400 detail) ->
  store (final (handle w r st)) = store st
  /\ open_clients (final (handle w r st)) = open_clients st
  /\ Forall (fun ev => store_event ev = false) (events (handle w r st))
  /\ (detail = "File must be a PDF"
      \/ detail = "File size must be less than 10MB"
      \/ (exists text, detail = "Invalid base64 data: " +:+ text)
      \/ detail = "No data could be extracted from the PDF").
Proof.
  intros Hr.
  paths w r st; try discriminate Hr; injection Hr as Hr; subst.
  - repeat split; [constructor|].
    destruct r as [pdf_file d|body0].
    + apply (accept_inl w (Multipart pdf_file d)) in Hacc.
      destruct Hacc as [[_ H]|[(_ & _ & text & H)|(_ & _ & H)]];
        [injection H as ->; auto|discriminate H|injection H as ->; auto].
    + apply (accept_inl w (Base64 body0)) in Hacc.
      destruct Hacc as (text & _ & H). injection H as ->. eauto.
  - repeat split; [repeat constructor|auto].
Qed.

Lemma status_400_means_store_untouched_witness :
  store (final (handle Sample.blank Sample.good_base64 Sample.st0))
  = store Sample.st0
  /\ Forall (fun ev => store_event ev = false)
       (events (handle Sample.blank Sample.good_base64 Sample.st0)).
Proof.
  destruct (status_400_means_store_untouched
              Sample.blank Sample.good_base64 Sample.st0
              "No data could be extracted from the PDF" eq_refl)
    as (Hs & _ & Hev & _).
  split; assumption.
Defined.

(** *** The two endpoints *)

(** X5: the two endpoints agree: a multipart upload that passes validation
    and a base64 body that decodes to the same bytes, with the same date,
    have the same outcome -- result, final state and calls made. *)
Theorem endpoints_agree_on_same_bytes
  (w : World) (pdf_file : UploadFile) (request : PDFProcessRequest)
  (st : State) (n : Z) :
  endswith (lower (filename pdf_file)) ".pdf" = true ->
  size pdf_file = Some n -> (n <= 10 * 1024 * 1024)%Z ->
  b64decode w (pdf_data request) = inr (content pdf_file) ->
  process_pdf w pdf_file (date request) st = process_pdf_base64 w request st.
Proof.
  intros Hext Hsize Hn Hdec.
  change (process_pdf w pdf_file (date request) st)
    with (handle w (Multipart pdf_file (date request)) st).
  change (process_pdf_base64 w request st) with (handle w (Base64 request) st).
  rewrite !handle_accept. simpl. rewrite Hext, Hsize, Hdec. simpl.
  apply Z.ltb_ge in Hn. now rewrite Hn.
Qed.

Lemma endpoints_agree_on_same_bytes_witness :
  process_pdf Sample.half_written Faulty.ten_mib_upload "15/01/2024" Sample.st0
  = process_pdf_base64 Sample.half_written
      {| pdf_data := "JVBERg=="; date := "15/01/2024" |} Sample.st0.
Proof.
  apply (endpoints_agree_on_same_bytes Sample.half_written
           Faulty.ten_mib_upload
           {| pdf_data := "JVBERg=="; date := "15/01/2024" |}
           Sample.st0 10485760%Z); reflexivity || (vm_compute; discriminate).
Defined.

(** *** Temporary storage *)

(** X6: a request never touches a file it did not create: the name it
    stages under was free before the request, and every other name holds
    after the request what it held before, on every path -- also when a
    write or a deletion fails. *)
Theorem other_files_untouched (w : World) (r : request) (st : State) :
  (forall p : string,
     In (EvTempCreate p) (events (handle w r st)) -> fs st !! p = None)
  /\ (forall q : string,
        ~ In (EvTempCreate q) (events (handle w r st)) ->
        fs (final (handle w r st)) !! q = fs st !! q).
Proof.
  paths w r st;
    (split;
     [ intros p0 Hin; in_events Hin;
       match goal with
       | H : EvTempCreate _ = EvTempCreate _ |- _ => injection H as <-
       end; eauto using first_fresh_lookup
     | intros q Hq; try reflexivity;
       match type of Hq with
       | ~ (EvTempCreate ?x = _ \/ _) =>
           assert (Hne : x <> q)
             by (intros ->; apply Hq; left; reflexivity)
       end;
       unfold after_cleanup; try destruct (unlink_fault w); simpl;
       rewrite ?lookup_delete_ne, ?lookup_insert_ne by congruence;
       reflexivity ]).
Qed.

Lemma other_files_untouched_witness :
  fs (final (handle Sample.sticky Sample.good_upload Faulty.st_with_file))
    !! "/tmp/keep.pdf"
  = fs Faulty.st_with_file !! "/tmp/keep.pdf".
Proof.
  apply (proj2 (other_files_untouched
                  Sample.sticky Sample.good_upload Faulty.st_with_file)).
  vm_compute. intros H.
  repeat (destruct H as [H|H]; [discriminate H|]). exact H.
Defined.

(** X7: when the write of the staged bytes fails, the file that was just
    created is left behind with the part of the request's bytes that had
    been written: the request answers 500 with the text of the fault, and
    neither the parser, nor the store, nor the deletion is reached. *)
Theorem write_fault_leaves_file
  (w : World) (r : request) (st : State) (p : string) :
  In (EvTempWrite p false) (events (handle w r st)) ->
  exists (k : nat) (text : string),
    tmp_write_fault w = Some (k, text)
    /\ result (handle w r st)
       = inl (HTTPException 500 ("Failed to process PDF: " +:+ text))
    /\ events (handle w r st) = [EvTempCreate p; EvTempWrite p false]
    /\ match r with
       | Multipart pdf_file _ =>
           fs (final (handle w r st)) !! p
           = Some (firstn k (content pdf_file))
       | Base64 body =>
           exists bytes,
             b64decode w (pdf_data body) = inr bytes
             /\ fs (final (handle w r st)) !! p = Some (firstn k bytes)
       end.
Proof.
  intros Hin.
  paths w r st; try solve [in_events Hin].
  injection Hres as <-.
  assert (p = p0) as -> by (in_events Hin; congruence).
  exists k, text. repeat split; try assumption.
  destruct r as [pdf_file d|body0].
  - apply (accept_inr w (Multipart pdf_file d)) in Hacc.
    destruct Hacc as (_ & _ & ->). apply lookup_insert_eq.
  - apply (accept_inr w (Base64 body0)) in Hacc.
    exists bytes. split; [assumption|apply lookup_insert_eq].
Qed.

Lemma write_fault_leaves_file_witness :
  exists (k : nat) (text : string),
    tmp_write_fault Faulty.disk_full = Some (k, text)
    /\ result (handle Faulty.disk_full Sample.good_upload Sample.st0)
       = inl (HTTPException 500 ("Failed to process PDF: " +:+ text))
    /\ events (handle Faulty.disk_full Sample.good_upload Sample.st0)
       = [EvTempCreate "/tmp/tmpk3v9x2.pdf";
          EvTempWrite "/tmp/tmpk3v9x2.pdf" false]
    /\ fs (final (handle Faulty.disk_full Sample.good_upload Sample.st0))
         !! "/tmp/tmpk3v9x2.pdf"
       = Some (firstn k Sample.pdf_bytes).
Proof.
  apply (write_fault_leaves_file Faulty.disk_full Sample.good_upload Sample.st0).
  vm_compute. right. left. reflexivity.
Defined.

(** *** The parser *)

(** X8: the parser is given exactly the bytes of the request: what it
    returned for a multipart request is what it returns on the uploaded
    content, and for a base64 request what it returns on the decoded
    payload; it is only ever run on a file that was written in full. *)
Theorem parser_sees_request_bytes
  (w : World) (r : request) (st : State)
  (p : string) (x : string + DataFrame) :
  In (EvParse p x) (events (handle w r st)) ->
  In (EvTempWrite p true) (events (handle w r st))
  /\ match r with
     | Multipart pdf_file _ =>
         x = process_pdf_to_dataframe w (content pdf_file)
     | Base64 body =>
         exists bytes,
           b64decode w (pdf_data body) = inr bytes
           /\ x = process_pdf_to_dataframe w bytes
     end.
Proof.
  intros Hin.
  paths w r st; try solve [in_events Hin];
    assert (Hx : p = tmp /\ x = process_pdf_to_dataframe w bytes)
      by (in_events Hin;
          match goal with
          | H : EvParse _ _ = EvParse _ _ |- _ => injection H as <- <-
          end; congruence);
    destruct Hx as [-> ->];
    (split; [right; left; reflexivity|]);
    (destruct r as [pdf_file d|body0];
     [ apply (accept_inr w (Multipart pdf_file d)) in Hacc;
       destruct Hacc as (_ & _ & ->); reflexivity
     | apply (accept_inr w (Base64 body0)) in Hacc; eauto ]).
Qed.

Lemma parser_sees_request_bytes_witness :
  In (EvTempWrite "/tmp/tmpk3v9x2.pdf" true)
     (events (handle Faulty.garbled Sample.good_upload Sample.st0))
  /\ inl "No /Root object! - Is this really a PDF?"
     = process_pdf_to_dataframe Faulty.garbled Sample.pdf_bytes.
Proof.
  apply (parser_sees_request_bytes Faulty.garbled Sample.good_upload
           Sample.st0 "/tmp/tmpk3v9x2.pdf"
           (inl "No /Root object! - Is this really a PDF?")).
  vm_compute. do 2 right. left. reflexivity.
Defined.

(** X9: when the parser raises, the request answers 500 with the parser's
    message after [Failed to process PDF: ], the store is never called --
    and the staged file is not removed: the [finally] clause finds [os]
    unbound, so no deletion is attempted and the file is still in
    storage. *)
Theorem parser_fault_is_internal_error
  (w : World) (r : request) (st : State) (p text : string) :
  In (EvParse p (inl text)) (events (handle w r st)) ->
  result (handle w r st)
  = inl (HTTPException 500 ("Failed to process PDF: " +:+ text))
  /\ store (final (handle w r st)) = store st
  /\ Forall (fun ev => store_event ev = false) (events (handle w r st))
  /\ (forall ok, ~ In (EvUnlink p ok) (events (handle w r st)))
  /\ fs (final (handle w r st)) !! p <> None.
Proof.
  intros Hin.
  paths w r st; try solve [in_events Hin].
  assert (p = tmp /\ text = msg) as [-> ->]
    by (in_events Hin; congruence).
  split; [reflexivity|]. split; [reflexivity|].
  split; [repeat constructor|].
  split.
  - intros ok H. in_events H.
  - rewrite lookup_insert_eq. discriminate.
Qed.

Lemma parser_fault_is_internal_error_witness :
  result (handle Faulty.garbled Sample.good_base64 Sample.st0)
  = inl (HTTPException 500
           "Failed to process PDF: No /Root object! - Is this really a PDF?")
  /\ store (final (handle Faulty.garbled Sample.good_base64 Sample.st0)) = []
  /\ Forall (fun ev => store_event ev = false)
       (events (handle Faulty.garbled Sample.good_base64 Sample.st0))
  /\ (forall ok,
        ~ In (EvUnlink "/tmp/tmpk3v9x2.pdf" ok)
            (events (handle Faulty.garbled Sample.good_base64 Sample.st0)))
  /\ fs (final (handle Faulty.garbled Sample.good_base64 Sample.st0))
       !! "/tmp/tmpk3v9x2.pdf" <> None.
Proof.
  apply (parser_fault_is_internal_error Faulty.garbled Sample.good_base64
           Sample.st0 "/tmp/tmpk3v9x2.pdf"
           "No /Root object! - Is this really a PDF?").
  vm_compute. do 2 right. left. reflexivity.
Defined.



(** *** The calls to the store *)

Lemma assemble_nonempty (d : string) (df : DataFrame) :
  df_empty df = false -> assemble d df <> [].
Proof.
  intros He Hnil. apply (f_equal (@length record)) in Hnil.
  rewrite assemble_length in Hnil. simpl in Hnil.
  unfold df_empty in He. rewrite Hnil in He. discriminate He.
Qed.

(** X10: whatever is handed to [insert_many] is the stamped batch of the
    frame that the parser returned: it is not empty, every document carries
    the date of the request, and the insert comes after a client was built
    from the configured connection string and a ping succeeded. *)
Theorem insert_only_stamped_batch_after_ping
  (w : World) (r : request) (st : State)
  (docs : list record) (o : insert_outcome) :
  In (EvInsertMany docs o) (events (handle w r st)) ->
  (exists (p : string) (df : DataFrame),
     In (EvParse p (inr df)) (events (handle w r st))
     /\ df_empty df = false
     /\ docs = assemble (request_date r) df)
  /\ docs <> []
  /\ Forall (fun doc => dict_get "date" doc = Some (VStr (request_date r)))
       docs
  /\ o = insert_many_outcome w docs
  /\ In (EvPing true) (events (handle w r st))
  /\ exists uri,
       environ_MONGODB_URI w = Some uri
       /\ In (EvConnect uri) (events (handle w r st)).
Proof.
  intros Hin.
  paths w r st; try solve [in_events Hin];
    assert (Ho : o = insert_many_outcome w docs)
      by (in_events Hin;
          match goal with
          | H : EvInsertMany _ _ = EvInsertMany _ _ |- _ =>
              injection H as <- <-
          end;
          match goal with
          | H : insert_many_outcome _ _ = _ |- _ => symmetry; exact H
          end);
    assert (docs = assemble (request_date r) frame) as ->
      by (in_events Hin; congruence);
    (split; [exists tmp, frame; split;
             [do 2 right; left; reflexivity|split; [assumption|reflexivity]]|]);
    (split; [assumption|]);
    (split; [apply assemble_dated|]);
    (split; [exact Ho|]);
    (split; [do 4 right; left; reflexivity|]);
    exists uri; (split; [assumption|do 3 right; left; reflexivity]).
Qed.

Lemma insert_only_stamped_batch_after_ping_witness :
  assemble "15/01/2024" Sample.two_rows <> []
  /\ In (EvPing true)
       (events (handle Sample.half_written Sample.good_base64 Sample.st0)).
Proof.
  destruct (insert_only_stamped_batch_after_ping
              Sample.half_written Sample.good_base64 Sample.st0
              (assemble "15/01/2024" Sample.two_rows)
              (InsertFail 1 "batch op errors occurred"))
    as (_ & Hne & _ & _ & Hping & _).
  - vm_compute. do 5 right. left. reflexivity.
  - split; assumption.
Defined.

(** X11: a successful ping is always followed by a bulk insert of a
    non-empty batch: from the handlers, the branch of the upload block that
    skips the insert for an empty batch is never taken. *)
Theorem ping_is_followed_by_insert
  (w : World) (r : request) (st : State) :
  In (EvPing true) (events (handle w r st)) ->
  exists docs,
    docs <> []
    /\ In (EvInsertMany docs (insert_many_outcome w docs))
         (events (handle w r st)).
Proof.
  intros Hin.
  paths w r st; try solve [in_events Hin];
    try (exfalso; eapply assemble_nonempty; eassumption);
    exists (assemble (request_date r) frame);
    (split; [assumption|]);
    do 5 right; left; f_equal;
    match goal with
    | H : insert_many_outcome _ _ = _ |- _ => symmetry; exact H
    end.
Qed.

Lemma ping_is_followed_by_insert_witness :
  exists docs,
    docs <> []
    /\ In (EvInsertMany docs (insert_many_outcome Sample.calm docs))
         (events (handle Sample.calm Sample.good_upload Sample.st0)).
Proof.
  apply (ping_is_followed_by_insert Sample.calm Sample.good_upload Sample.st0).
  vm_compute. do 4 right. left. reflexivity.
Defined.

(** X12: when the ping fails, the request answers 500 with the driver's
    message after [MongoDB upload failed: ], nothing is inserted and the
    store is what it was. *)
Theorem ping_failure_inserts_nothing
  (w : World) (r : request) (st : State) :
  In (EvPing false) (events (handle w r st)) ->
  exists text,
    ping_fault w = Some text
    /\ result (handle w r st)
       = inl (HTTPException 500 ("MongoDB upload failed: " +:+ text))
    /\ store (final (handle w r st)) = store st
    /\ forall docs o, ~ In (EvInsertMany docs o) (events (handle w r st)).
Proof.
  intros Hin.
  paths w r st; try solve [in_events Hin].
  rewrite store_after_cleanup. exists text.
  repeat split; try assumption.
  intros docs o Hi. in_events Hi.
Qed.

Lemma ping_failure_inserts_nothing_witness :
  exists text,
    ping_fault Sample.unreachable = Some text
    /\ result (handle Sample.unreachable Sample.good_base64 Sample.st0)
       = inl (HTTPException 500 ("MongoDB upload failed: " +:+ text))
    /\ store (final (handle Sample.unreachable Sample.good_base64 Sample.st0))
       = store Sample.st0
    /\ forall docs o,
         ~ In (EvInsertMany docs o)
             (events (handle Sample.unreachable Sample.good_base64 Sample.st0)).
Proof.
  apply (ping_failure_inserts_nothing
           Sample.unreachable Sample.good_base64 Sample.st0).
  vm_compute. do 4 right. left. reflexivity.
Defined.

(** X13: once the parser has returned a frame that is not empty, the only
    way a request fails is in the upload block: every such failure is a 500
    whose detail starts with [MongoDB upload failed: ]. *)
Theorem after_parse_only_upload_fails
  (w : World) (r : request) (st : State)
  (p : string) (df : DataFrame) (e : exn) :
  In (EvParse p (inr df)) (events (handle w r st)) ->
  df_empty df = false ->
  result (handle w r st) = inl e ->
  exists rest,
    e = HTTPException 500 ("MongoDB upload failed: " +:+ rest).
Proof.
  intros Hin He Hr.
  paths w r st; try solve [in_events Hin]; try discriminate Hr;
    try solve [in_events Hin; congruence];
    injection Hr as <-; eauto.
Qed.

Lemma after_parse_only_upload_fails_witness :
  exists rest,
    HTTPException 500 "MongoDB upload failed: batch op errors occurred"
    = HTTPException 500 ("MongoDB upload failed: " +:+ rest).
Proof.
  apply (after_parse_only_upload_fails
           Sample.half_written Sample.good_upload Sample.st0
           "/tmp/tmpk3v9x2.pdf" Sample.two_rows).
  - vm_compute. do 2 right. left. reflexivity.
  - reflexivity.
  - reflexivity.
Defined.

Lemma client_closed_only_on_success_witness :
  ~ In EvClose
      (events (handle Sample.half_written Sample.good_base64 Sample.st0))
  /\ open_clients
       (final (handle Sample.half_written Sample.good_base64 Sample.st0))
     = 1.
Proof.
  apply (client_closed_only_on_success
           Sample.half_written Sample.good_base64 Sample.st0
           "mongodb://db.example/").
  vm_compute. do 3 right. left. reflexivity.
Defined.

(** *** The probe endpoints *)

(** X16: when the parser cannot be built, [/health] answers 500 with
    [Service unhealthy: ] and the fault's text, [/test-parser] answers 500
    with [Parser test failed: ] and the same text, and every process
    request that gets as far as staging answers 500 with
    [Failed to process PDF: ] and the same text, without running the parser
    or calling the store. *)
Theorem broken_parser_fails_probes_and_requests
  (w : World) (st : State) (text parser_class : string)
  (r : request) (p : string) :
  parser_init_fault w = Some text ->
  In (EvTempWrite p true) (events (handle w r st)) ->
  health_check w st
  = mkOutcome (inl (HTTPException 500 ("Service unhealthy: " +:+ text))) st []
  /\ test_parser w parser_class st
     = mkOutcome (inl (HTTPException 500 ("Parser test failed: " +:+ text)))
         st []
  /\ result (handle w r st)
     = inl (HTTPException 500 ("Failed to process PDF: " +:+ text))
  /\ store (final (handle w r st)) = store st
  /\ Forall (fun ev => match ev with
                       | EvParse _ _ => False
                       | _ => store_event ev = false
                       end)
       (events (handle w r st)).
Proof.
  intros Hfault Hin.
  split; [|split].
  - unfold health_check, FixedRainfallParser. rewrite Hfault. reflexivity.
  - unfold test_parser, FixedRainfallParser. rewrite Hfault. reflexivity.
  - paths w r st; try solve [in_events Hin]; try congruence.
    assert (msg = text) as -> by congruence.
    repeat split; repeat constructor.
Qed.

Lemma broken_parser_fails_probes_and_requests_witness :
  health_check Faulty.broken_parser Sample.st0
  = mkOutcome
      (inl (HTTPException 500
              "Service unhealthy: No module named 'pdfplumber'"))
      Sample.st0 []
  /\ result (handle Faulty.broken_parser Sample.good_upload Sample.st0)
     = inl (HTTPException 500
              "Failed to process PDF: No module named 'pdfplumber'").
Proof.
  destruct (broken_parser_fails_probes_and_requests
              Faulty.broken_parser Sample.st0 "No module named 'pdfplumber'"
              "<class 'parser.FixedRainfallParser'>"
              Sample.good_upload "/tmp/tmpk3v9x2.pdf")
    as (Hh & _ & Hr & _).
  - reflexivity.
  - vm_compute. right. left. reflexivity.
  - split; assumption.
Defined.

(** X17: [/health] looks at nothing but the construction of the parser: it
    changes no state and makes no call, and two worlds in which the
    construction behaves alike get the same answer -- so it reports healthy
    also when the connection string is missing or the store is down. *)
Theorem health_check_only_builds_parser (w w' : World) (st : State) :
  parser_init_fault w = parser_init_fault w' ->
  health_check w st = health_check w' st
  /\ final (health_check w st) = st
  /\ events (health_check w st) = []
  /\ ((exists body, result (health_check w st) = inr body)
      <-> parser_init_fault w = None).
Proof.
  intros Heq. unfold health_check, FixedRainfallParser. rewrite <- Heq.
  destruct (parser_init_fault w) as [text|]; simpl.
  - repeat split; try discriminate. intros [body H]. discriminate H.
  - repeat split. eauto.
Qed.

Lemma health_check_only_builds_parser_witness :
  health_check Sample.unconfigured Sample.st0
  = health_check Sample.calm Sample.st0
  /\ exists body, result (health_check Sample.unconfigured Sample.st0) = inr body.
Proof.
  destruct (health_check_only_builds_parser
              Sample.unconfigured Sample.calm Sample.st0 eq_refl)
    as (Heq & _ & _ & Hok).
  split; [exact Heq|]. apply Hok. reflexivity.
Defined.

(** *** The extension check *)

Lemma lower_app (a b : string) : lower (a +:+ b) = lower a +:+ lower b.
Proof.
  induction a as [|c a IH]; [reflexivity|].
  change (String (ascii_lower c) (lower (a +:+ b))
          = String (ascii_lower c) (lower a +:+ lower b)).
  now f_equal.
Qed.

Lemma length_lower (s : string) : String.length (lower s) = String.length s.
Proof. induction s as [|c s IH]; simpl; [reflexivity|now rewrite IH]. Qed.

Lemma string_length_app (a b : string) :
  String.length (a +:+ b) = String.length a + String.length b.
Proof.
  induction a as [|c a IH]; [reflexivity|].
  change (S (String.length (a +:+ b)) = S (String.length a + String.length b)).
  now rewrite IH.
Qed.

Lemma substring_all (s : string) : substring 0 (String.length s) s = s.
Proof. induction s as [|c s IH]; simpl; [reflexivity|now rewrite IH]. Qed.

Lemma substring_skip (a b : string) :
  substring (String.length a) (String.length b) (a +:+ b) = b.
Proof.
  induction a as [|c a IH]; [apply substring_all|].
  change (substring (String.length a) (String.length b) (a +:+ b) = b).
  exact IH.
Qed.

Lemma endswith_app (a b : string) : endswith (a +:+ b) b = true.
Proof.
  unfold endswith. rewrite string_length_app.
  replace (String.length a + String.length b - String.length b)
    with (String.length a) by lia.
  rewrite substring_skip, String.eqb_refl.
  rewrite andb_true_r. apply Nat.leb_le. lia.
Qed.

Lemma endswith_short (s suffix : string) :
  String.length s < String.length suffix -> endswith s suffix = false.
Proof.
  intros H. unfold endswith.
  apply Nat.leb_gt in H. now rewrite H.
Qed.

(** X18: the extension check of the multipart endpoint ignores letter
    case: a file name made of any stem followed by [.pdf] written in any
    mix of upper and lower case is never answered with
    [File must be a PDF]; a name of fewer than four characters always
    is. *)
Theorem extension_check_ignores_case
  (w : World) (pdf_file : UploadFile) (d : string) (st : State) :
  (forall stem ext : string,
     filename pdf_file = stem +:+ ext -> lower ext = ".pdf" ->
     result (process_pdf w pdf_file d st)
     <> inl (HTTPException 400 "File must be a PDF"))
  /\ (String.length (filename pdf_file) < 4 ->
      process_pdf w pdf_file d st
      = mkOutcome (inl (HTTPException 400 "File must be a PDF")) st []).
Proof.
  change (process_pdf w pdf_file d st)
    with (handle w (Multipart pdf_file d) st).
  split.
  - intros stem ext Hname Hext Hr.
    assert (Hok : endswith (lower (filename pdf_file)) ".pdf" = true).
    { rewrite Hname, lower_app, Hext. apply endswith_app. }
    paths w (Multipart pdf_file d) st; try discriminate Hr;
      try solve [details Hr].
    rewrite Hok in Hacc. simpl in Hacc.
    destruct (size pdf_file) as [n|]; [|congruence].
    destruct (Z.ltb _ n); [|discriminate Hacc].
    injection Hacc as <-. discriminate Hr.
  - intros Hlen. rewrite handle_accept. simpl.
    rewrite endswith_short; [reflexivity|].
    now rewrite length_lower.
Qed.

Lemma extension_check_ignores_case_witness :
  result (process_pdf Sample.calm
            {| filename := "Rain_2024.PdF"; size := Some 4%Z;
               content := Sample.pdf_bytes |} "15/01/2024" Sample.st0)
  <> inl (HTTPException 400 "File must be a PDF")
  /\ process_pdf Sample.calm
       {| filename := "pdf"; size := Some 4%Z; content := Sample.pdf_bytes |}
       "15/01/2024" Sample.st0
     = mkOutcome (inl (HTTPException 400 "File must be a PDF")) Sample.st0 [].
Proof.
  split.
  - apply (proj1 (extension_check_ignores_case Sample.calm
                    {| filename := "Rain_2024.PdF"; size := Some 4%Z;
                       content := Sample.pdf_bytes |} "15/01/2024" Sample.st0)
             "Rain_2024" ".PdF"); reflexivity.
  - apply (proj2 (extension_check_ignores_case Sample.calm
                    {| filename := "pdf"; size := Some 4%Z;
                       content := Sample.pdf_bytes |} "15/01/2024" Sample.st0)).
    simpl. lia.
Defined.

(** ** The smoke-test script *)

Module TestLocalFacts.
Import TestLocal.

Section Checks.

Variable requests_get : string -> string + Response.

Lemma check_endpoint_verdict (url ok_label fail_label : string) :
  fst (check_endpoint requests_get url ok_label fail_label) = true
  <-> answers_json requests_get url.
Proof.
  unfold check_endpoint, answers_json.
  destruct (requests_get url) as [e|response].
  - split; [discriminate|]. intros (resp & body & H & _). discriminate H.
  - destruct (json response) as [e|body] eqn:Hj; simpl.
    + split; [discriminate|].
      intros (resp & body & [= <-] & H). congruence.
    + split; [eauto|reflexivity].
Qed.

Lemma check_endpoint_gets (url ok_label fail_label : string) :
  gets (snd (check_endpoint requests_get url ok_label fail_label)) = [url].
Proof.
  unfold check_endpoint.
  destruct (requests_get url) as [e|response]; [reflexivity|].
  now destruct (json response).
Qed.

(** X19: a test of the script passes exactly when the GET returned a
    response whose body decodes as JSON; the status code is printed and
    never looked at, so an endpoint that answers 500 with a JSON error body
    passes. *)
Theorem tests_ignore_status_code (base_url : string) :
  (fst (test_health_endpoint requests_get base_url) = true
   <-> answers_json requests_get (base_url +:+ "/health"))
  /\ (fst (test_root_endpoint requests_get base_url) = true
      <-> answers_json requests_get (base_url +:+ "/"))
  /\ (fst (test_parser_endpoint requests_get base_url) = true
      <-> answers_json requests_get (base_url +:+ "/test-parser")).
Proof.
  split; [|split]; apply check_endpoint_verdict.
Qed.

Lemma gets_app (a b : list io) : gets (a ++ b) = gets a ++ gets b.
Proof.
  induction a as [|[u|l] a IHa]; simpl;
    [reflexivity|now rewrite IHa|apply IHa].
Qed.

Lemma run_tests_gets tests passed out :
  gets (snd (run_tests tests passed out))
  = gets out ++ List.concat (map (fun t => gets (snd (snd t))) tests).
Proof.
  revert passed out. induction tests as [|[name [ok evs]] tests IH];
    intros passed out; simpl.
  - now rewrite app_nil_r.
  - rewrite IH. clear IH.
    repeat (rewrite gets_app; simpl).
    rewrite app_nil_r. now rewrite <- app_assoc.
Qed.

Lemma run_tests_passed tests passed out :
  fst (run_tests tests passed out)
  = passed + length (List.filter (fun t => fst (snd t)) tests).
Proof.
  revert passed out. induction tests as [|[name [ok evs]] tests IH];
    intros passed out; simpl.
  - lia.
  - rewrite IH. destruct ok; simpl; lia.
Qed.

(** X20: the script reports success, and exits with code 0, exactly when
    each of the three endpoints, under the configured base URL or
    [http://localhost:8000] when none is configured, answered with a body
    that decodes as JSON. *)
Theorem main_passes_iff_all_answer_json (RAILWAY_URL : option string) :
  (fst (main requests_get RAILWAY_URL) = true
   <-> answers_json requests_get
         (default "http://localhost:8000" RAILWAY_URL +:+ "/health")
       /\ answers_json requests_get
            (default "http://localhost:8000" RAILWAY_URL +:+ "/")
       /\ answers_json requests_get
            (default "http://localhost:8000" RAILWAY_URL +:+ "/test-parser"))
  /\ (exit_code requests_get RAILWAY_URL = 0
      <-> fst (main requests_get RAILWAY_URL) = true).
Proof.
  split.
  - set (base_url := default "http://localhost:8000" RAILWAY_URL).
    pose proof (check_endpoint_verdict (base_url +:+ "/health")
                  "✅ Health check: " "❌ Health check failed: ") as H1.
    pose proof (check_endpoint_verdict (base_url +:+ "/")
                  "✅ Root endpoint: " "❌ Root endpoint failed: ") as H2.
    pose proof (check_endpoint_verdict (base_url +:+ "/test-parser")
                  "✅ Parser test: " "❌ Parser test failed: ") as H3.
    fold (test_health_endpoint requests_get base_url) in H1.
    fold (test_root_endpoint requests_get base_url) in H2.
    fold (test_parser_endpoint requests_get base_url) in H3.
    rewrite <- H1, <- H2, <- H3. clear H1 H2 H3.
    unfold main. fold base_url.
    set (tests := [("Health Check", test_health_endpoint requests_get base_url);
                   ("Root Endpoint", test_root_endpoint requests_get base_url);
                   ("Parser Test", test_parser_endpoint requests_get base_url)]).
    pose proof (run_tests_passed tests 0 []) as Hp.
    destruct (run_tests tests 0 []) as [passed out]. simpl in Hp. subst passed.
    subst tests. simpl.
    destruct (fst (test_health_endpoint requests_get base_url));
      destruct (fst (test_root_endpoint requests_get base_url));
      destruct (fst (test_parser_endpoint requests_get base_url));
      simpl; intuition discriminate.
  - unfold exit_code.
    destruct (fst (main requests_get RAILWAY_URL)); split;
      intros H; try reflexivity; discriminate H.
Qed.

(** X21: the script always fetches the three endpoints, in the order
    [/health], [/], [/test-parser], under the same base URL: a test that
    fails does not stop the run. *)
Theorem main_always_probes_all_three (RAILWAY_URL : option string) :
  gets (snd (main requests_get RAILWAY_URL))
  = [default "http://localhost:8000" RAILWAY_URL +:+ "/health";
     default "http://localhost:8000" RAILWAY_URL +:+ "/";
     default "http://localhost:8000" RAILWAY_URL +:+ "/test-parser"].
Proof.
  unfold main.
  set (base_url := default "http://localhost:8000" RAILWAY_URL).
  set (tests := [("Health Check", test_health_endpoint requests_get base_url);
                 ("Root Endpoint", test_root_endpoint requests_get base_url);
                 ("Parser Test", test_parser_endpoint requests_get base_url)]).
  pose proof (run_tests_gets tests 0 []) as Hg.
  destruct (run_tests tests 0 []) as [passed out]. simpl in Hg.
  simpl. rewrite gets_app. simpl. rewrite app_nil_r, Hg.
  unfold test_health_endpoint, test_root_endpoint, test_parser_endpoint.
  now rewrite !check_endpoint_gets.
Qed.

End Checks.

Lemma tests_ignore_status_code_witness :
  status_code
    {| status_code := 500;
       json := inr "{'detail': 'Service unhealthy: boom'}" |} = 500
  /\ fst (test_health_endpoint unhealthy_service "http://localhost:8000")
     = true.
Proof.
  split; [reflexivity|].
  apply (proj1 (tests_ignore_status_code unhealthy_service
                  "http://localhost:8000")).
  eexists _, _. split; reflexivity.
Defined.

Lemma main_passes_iff_all_answer_json_witness :
  fst (main unhealthy_service None) = true
  /\ exit_code unhealthy_service None = 0.
Proof.
  destruct (main_passes_iff_all_answer_json unhealthy_service None)
    as [Hmain Hexit].
  assert (H : fst (main unhealthy_service None) = true).
  { apply Hmain. repeat split; eexists _, _; split; reflexivity. }
  split; [exact H|]. apply Hexit. exact H.
Defined.

End TestLocalFacts.
